(** * app3: a periodic log emitter

    Shallow embedding of [src/app.py] and of the parts of Python's [logging],
    [time] and file layers that the eleven lines of the program call.

    The program configures the root logger once (file handler on
    [/tmp/app-logs/app3.log], threshold INFO, a JSON-shaped [%]-template) and
    then loops forever: one [logging.debug] call, one [logging.warning] call,
    one [time.sleep(3)].

    What the program cannot decide is left to an environment: the wall-clock
    reading returned by each [time.time()] call, the time-zone conversion
    [time.localtime], and the initial state of the file system. *)

From Stdlib Require Import ZArith NArith List String Ascii Lia DecimalString.
From stdpp Require Import base option gmap strings list.

Local Open Scope Z_scope.

(** ** Characters and strings *)

Module Chars.

Definition dquote : ascii := ascii_of_nat 34.
Definition backslash : ascii := ascii_of_nat 92.
Definition newline : ascii := ascii_of_nat 10.

Definition DQ : string := String dquote EmptyString.
Definition NL : string := String newline EmptyString.

(** [c in s], as Python's [in] on a one-character string. *)
Fixpoint mem_char (c : ascii) (s : string) : bool :=
  match s with
  | EmptyString => false
  | String d rest => Ascii.eqb c d || mem_char c rest
  end.

Fixpoint all_chars (p : ascii -> bool) (s : string) : bool :=
  match s with
  | EmptyString => true
  | String c rest => p c && all_chars p rest
  end.

Definition no_newline (c : ascii) : bool := negb (Ascii.eqb c newline).

(** [needle in hay], as a proposition. *)
Definition contains (hay needle : string) : Prop :=
  exists pre post, hay = pre +:+ needle +:+ post.

(** The text of a file cut into its newline-terminated lines; a last
    fragment with no newline is kept as a last line, as when a file is read
    line by line. *)
Fixpoint split_lines_acc (cur : string -> string) (s : string) : list string :=
  match s with
  | EmptyString => match cur EmptyString with
                   | EmptyString => []
                   | frag => [frag]
                   end
  | String c rest =>
      if Ascii.eqb c newline
      then cur EmptyString :: split_lines_acc (fun t => t) rest
      else split_lines_acc (fun t => cur (String c t)) rest
  end.

Definition split_lines (s : string) : list string :=
  split_lines_acc (fun t => t) s.

(** [''.join(l + '\n' for l in ls)] *)
Fixpoint unlines (ls : list string) : string :=
  match ls with
  | [] => EmptyString
  | l :: rest => l +:+ NL +:+ unlines rest
  end.

End Chars.
Import Chars.

(** ** Time: [time.time], [time.localtime], [time.strftime] *)

Module Time.

(** [time.struct_time], the fields [strftime] reads. *)
Record struct_time := {
  tm_year : Z; tm_mon : Z; tm_mday : Z;
  tm_hour : Z; tm_min : Z; tm_sec : Z
}.

Definition str_of_N (n : N) : string := NilZero.string_of_uint (N.to_uint n).

Fixpoint zeros (k : nat) : string :=
  match k with
  | O => EmptyString
  | S k' => String "0" (zeros k')
  end.

(** ['%0<width>d' % z]: sign first, then zeros up to the width. *)
Definition pad0 (width : nat) (z : Z) : string :=
  let d := str_of_N (Z.abs_N z) in
  if z <? 0
  then "-" +:+ zeros (width - 1 - String.length d) +:+ d
  else zeros (width - String.length d) +:+ d.

(** [time.strftime('%Y-%m-%d %H:%M:%S', t)], the default [datefmt] of
    [logging.Formatter], for the years of four digits (an earlier year is
    printed by the C library with the digits it has). *)
Definition strftime (t : struct_time) : string :=
  pad0 4 (tm_year t) +:+ "-" +:+ pad0 2 (tm_mon t) +:+ "-" +:+ pad0 2 (tm_mday t)
  +:+ " " +:+ pad0 2 (tm_hour t) +:+ ":" +:+ pad0 2 (tm_min t) +:+ ":" +:+ pad0 2 (tm_sec t).

(** [time.gmtime]: the conversion for a host whose local time is UTC
    (days since the epoch to a civil date, proleptic Gregorian calendar). *)
Definition civil_from_days (days : Z) : Z * Z * Z :=
  let z := days + 719468 in
  let era := z / 146097 in
  let doe := z - era * 146097 in
  let yoe := (doe - doe / 1460 + doe / 36524 - doe / 146096) / 365 in
  let y := yoe + era * 400 in
  let doy := doe - (365 * yoe + yoe / 4 - yoe / 100) in
  let mp := (5 * doy + 2) / 153 in
  let d := doy - (153 * mp + 2) / 5 + 1 in
  let m := if mp <? 10 then mp + 3 else mp - 9 in
  (if m <=? 2 then y + 1 else y, m, d).

Definition gmtime (secs : Z) : struct_time :=
  let '(y, m, d) := civil_from_days (secs / 86400) in
  let r := secs mod 86400 in
  {| tm_year := y; tm_mon := m; tm_mday := d;
     tm_hour := r / 3600; tm_min := (r mod 3600) / 60; tm_sec := r mod 60 |}.

End Time.
Import Time.

(** ** The environment of a run *)

(** [clock k] is the value of the [k]-th call of [time.time()], in
    milliseconds since the epoch (the digits after the milliseconds are never
    printed). [localtime] is the host's time-zone conversion, applied to whole
    seconds. Nothing is assumed of either: the wall clock can be set back
    between two calls. *)
Record Env := {
  clock : nat -> Z;
  localtime : Z -> struct_time
}.

(** ** The file system the program sees *)

Module Fs.

Record File := { f_data : string; f_writable : bool }.

(** Directories (with whether this process may create entries in them) and
    regular files (with their text and whether this process may write them),
    both by absolute path. *)
Record FS := {
  dirs : gmap string bool;
  files : gmap string File
}.

Inductive OSError := FileNotFoundError | PermissionError.

(** [posixpath.dirname]: the path up to its last slash, trailing slashes
    dropped unless nothing else is left. *)
Fixpoint head_to_last_slash (p : string) : string :=
  match p with
  | EmptyString => EmptyString
  | String c rest =>
      if mem_char "/" p then String c (head_to_last_slash rest) else EmptyString
  end.

Definition is_slash (c : ascii) : bool := Ascii.eqb c "/".

Fixpoint rstrip_slashes (s : string) : string :=
  match s with
  | EmptyString => EmptyString
  | String c rest =>
      if all_chars is_slash s then EmptyString else String c (rstrip_slashes rest)
  end.

Definition dirname (p : string) : string :=
  let head := head_to_last_slash p in
  if all_chars is_slash head then head else rstrip_slashes head.

(** [open(path, 'a')]: the directory must exist; an existing file must be
    writable; a missing file is created, which the directory must allow.
    The file system holds directories and regular files only where they
    belong: a destination that is itself a directory, or whose parent is a
    regular file (for which [open] has errors of their own), is not among
    the file systems described here. *)
Definition open_append (path : string) (fs : FS) : OSError + FS :=
  match dirs fs !! dirname path with
  | None => inl FileNotFoundError
  | Some dir_writable =>
      match files fs !! path with
      | Some f => if f_writable f then inr fs else inl PermissionError
      | None =>
          if dir_writable : bool
          then inr {| dirs := dirs fs;
                      files := <[path := {| f_data := EmptyString; f_writable := true |}]> (files fs) |}
          else inl PermissionError
      end
  end.

(** [stream.write(data)] on a stream opened in append mode, then [flush()]. *)
Definition append_data (path data : string) (fs : FS) : FS :=
  {| dirs := dirs fs;
     files := alter (fun f => {| f_data := f_data f +:+ data; f_writable := f_writable f |})
                    path (files fs) |}.

(** The text of the file at [path]; nothing when there is no such file. *)
Definition read_text (path : string) (fs : FS) : string :=
  match files fs !! path with
  | Some f => f_data f
  | None => EmptyString
  end.

End Fs.
Import Fs.

(** ** JSON, for the consumers of the log file *)

Module Json.

#[local] Unset Elimination Schemes.
Inductive json :=
| JNull
| JBool (b : bool)
| JNumber (literal : string)
| JString (s : string)
| JArray (items : list json)
| JObject (members : list (string * json)).
#[local] Set Elimination Schemes.

Definition is_ws (c : ascii) : bool :=
  Ascii.eqb c " " || Ascii.eqb c newline
  || Ascii.eqb c (ascii_of_nat 9) || Ascii.eqb c (ascii_of_nat 13).

Fixpoint skip_ws (s : string) : string :=
  match s with
  | String c rest => if is_ws c then skip_ws rest else s
  | EmptyString => s
  end.

(** A character that may stand unescaped inside a JSON string. *)
Definition plain_char (c : ascii) : bool :=
  (32 <=? nat_of_ascii c)%nat
  && negb (Ascii.eqb c dquote) && negb (Ascii.eqb c backslash).

Definition hex_digit (c : ascii) : option N :=
  let n := N_of_ascii c in
  if ((48 <=? n) && (n <=? 57))%N then Some (n - 48)%N
  else if ((65 <=? n) && (n <=? 70))%N then Some (n - 55)%N
  else if ((97 <=? n) && (n <=? 102))%N then Some (n - 87)%N
  else None.

(** UTF-8 bytes of a code unit below 0x10000. *)
Definition utf8 (u : N) : string :=
  (if u <? 128 then String (ascii_of_N u) EmptyString
   else if u <? 2048
   then String (ascii_of_N (192 + u / 64))
          (String (ascii_of_N (128 + u mod 64)) EmptyString)
   else String (ascii_of_N (224 + u / 4096))
          (String (ascii_of_N (128 + (u / 64) mod 64))
             (String (ascii_of_N (128 + u mod 64)) EmptyString)))%N.

Definition unescape (c : ascii) : option ascii :=
  if Ascii.eqb c dquote then Some dquote
  else if Ascii.eqb c backslash then Some backslash
  else if Ascii.eqb c "/" then Some "/"%char
  else if Ascii.eqb c "b" then Some (ascii_of_nat 8)
  else if Ascii.eqb c "f" then Some (ascii_of_nat 12)
  else if Ascii.eqb c "n" then Some newline
  else if Ascii.eqb c "r" then Some (ascii_of_nat 13)
  else if Ascii.eqb c "t" then Some (ascii_of_nat 9)
  else None.

Inductive str_mode :=
| SPlain
| SEscape
| SHex (remaining : nat) (acc : N).

Definition prepend (p : string) (r : string * string) : string * string :=
  (p +:+ fst r, snd r).

(** The characters of a string literal after its opening quote: the decoded
    text and what follows the closing quote. *)
Fixpoint parse_chars (m : str_mode) (s : string) : option (string * string) :=
  match s with
  | EmptyString => None
  | String c rest =>
      match m with
      | SPlain =>
          if Ascii.eqb c dquote then Some (EmptyString, rest)
          else if Ascii.eqb c backslash then parse_chars SEscape rest
          else if plain_char c
          then prepend (String c EmptyString) <$> parse_chars SPlain rest
          else None
      | SEscape =>
          match unescape c with
          | Some d => prepend (String d EmptyString) <$> parse_chars SPlain rest
          | None => if Ascii.eqb c "u" then parse_chars (SHex 3 0%N) rest else None
          end
      | SHex k acc =>
          match hex_digit c with
          | None => None
          | Some h =>
              let acc' := (16 * acc + h)%N in
              match k with
              | O => prepend (utf8 acc') <$> parse_chars SPlain rest
              | S k' => parse_chars (SHex k' acc') rest
              end
          end
      end
  end.

Definition is_digit (c : ascii) : bool :=
  let n := N_of_ascii c in ((48 <=? n) && (n <=? 57))%N.

(** The longest run of digits at the head of [s], and the rest. *)
Fixpoint span_digits (s : string) : string * string :=
  match s with
  | String c rest =>
      if is_digit c then prepend (String c EmptyString) (span_digits rest)
      else (EmptyString, s)
  | EmptyString => (EmptyString, s)
  end.

Definition strip_prefix (pre s : string) : option string :=
  if String.prefix pre s
  then Some (String.substring (String.length pre) (String.length s - String.length pre) s)
  else None.

(** A number literal: an optional minus sign; a zero, or a digit from 1 to 9
    and any digits; optionally a dot and one digit or more; optionally an
    exponent (e or E, an optional sign, one digit or more). *)
Definition parse_number (s : string) : option (string * string) :=
  let '(sign, s1) :=
    match s with
    | String "-" r => ("-"%string, r)
    | _ => (EmptyString, s)
    end in
  let '(int, s2) := span_digits s1 in
  match int with
  | EmptyString => None
  | String d more =>
      if Ascii.eqb d "0" && negb (String.eqb more EmptyString) then None
      else
        let frac :=
          match s2 with
          | String "." r =>
              let '(ds, r') := span_digits r in
              match ds with
              | EmptyString => None
              | _ => Some ("." +:+ ds, r')
              end
          | _ => Some (EmptyString, s2)
          end in
        match frac with
        | None => None
        | Some (f, s3) =>
            let exp :=
              match s3 with
              | String e r =>
                  if Ascii.eqb e "e" || Ascii.eqb e "E"
                  then
                    let '(sg, r1) :=
                      match r with
                      | String "+" r1 => ("+"%string, r1)
                      | String "-" r1 => ("-"%string, r1)
                      | _ => (EmptyString, r)
                      end in
                    let '(ds, r2) := span_digits r1 in
                    match ds with
                    | EmptyString => None
                    | _ => Some (String e sg +:+ ds, r2)
                    end
                  else Some (EmptyString, s3)
              | EmptyString => Some (EmptyString, s3)
              end in
            match exp with
            | None => None
            | Some (x, s4) => Some (sign +:+ int +:+ f +:+ x, s4)
            end
        end
  end.

(** One JSON value at the head of [s] (after white space), and the rest.
    [fuel] bounds the number of values and members read. *)
Fixpoint parse_value (fuel : nat) (s : string) {struct fuel} : option (json * string) :=
  match fuel with
  | O => None
  | S f =>
      match skip_ws s with
      | EmptyString => None
      | String c rest =>
          if Ascii.eqb c "{" then
            match skip_ws rest with
            | String c2 r2 =>
                if Ascii.eqb c2 "}" then Some (JObject [], r2)
                else match parse_members f (skip_ws rest) with
                     | Some (ms, r3) => Some (JObject ms, r3)
                     | None => None
                     end
            | EmptyString => None
            end
          else if Ascii.eqb c "[" then
            match skip_ws rest with
            | String c2 r2 =>
                if Ascii.eqb c2 "]" then Some (JArray [], r2)
                else match parse_items f rest with
                     | Some (vs, r3) => Some (JArray vs, r3)
                     | None => None
                     end
            | EmptyString => None
            end
          else if Ascii.eqb c dquote then
            match parse_chars SPlain rest with
            | Some (str, r) => Some (JString str, r)
            | None => None
            end
          else if Ascii.eqb c "t" then
            match strip_prefix "rue" rest with
            | Some r => Some (JBool true, r)
            | None => None
            end
          else if Ascii.eqb c "f" then
            match strip_prefix "alse" rest with
            | Some r => Some (JBool false, r)
            | None => None
            end
          else if Ascii.eqb c "n" then
            match strip_prefix "ull" rest with
            | Some r => Some (JNull, r)
            | None => None
            end
          else
            match parse_number (String c rest) with
            | Some (lit, r) => Some (JNumber lit, r)
            | None => None
            end
      end
  end

(** [string : value] pairs up to the closing brace; [s] starts at the
    opening quote of the first name. *)
with parse_members (fuel : nat) (s : string) {struct fuel}
  : option (list (string * json) * string) :=
  match fuel with
  | O => None
  | S f =>
      match s with
      | EmptyString => None
      | String c rest =>
          if Ascii.eqb c dquote then
            match parse_chars SPlain rest with
            | None => None
            | Some (name, r1) =>
                match skip_ws r1 with
                | EmptyString => None
                | String c1 r2 =>
                    if Ascii.eqb c1 ":" then
                      match parse_value f r2 with
                      | None => None
                      | Some (v, r3) =>
                          match skip_ws r3 with
                          | EmptyString => None
                          | String c3 r4 =>
                              if Ascii.eqb c3 "," then
                                match parse_members f (skip_ws r4) with
                                | Some (ms, r5) => Some ((name, v) :: ms, r5)
                                | None => None
                                end
                              else if Ascii.eqb c3 "}" then Some ([(name, v)], r4)
                              else None
                          end
                      end
                    else None
                end
            end
          else None
      end
  end

(** Values up to the closing bracket. *)
with parse_items (fuel : nat) (s : string) {struct fuel}
  : option (list json * string) :=
  match fuel with
  | O => None
  | S f =>
      match parse_value f s with
      | None => None
      | Some (v, r1) =>
          match skip_ws r1 with
          | EmptyString => None
          | String c r2 =>
              if Ascii.eqb c "," then
                match parse_items f r2 with
                | Some (vs, r3) => Some (v :: vs, r3)
                | None => None
                end
              else if Ascii.eqb c "]" then Some ([v], r2)
              else None
          end
      end
  end.

(** [json.loads(s)]: one value, then nothing but white space. Every value
    and every member read consumes a character, so the length of the text
    is fuel enough. *)
Definition loads (s : string) : option json :=
  match parse_value (S (String.length s)) s with
  | Some (v, rest) =>
      match skip_ws rest with
      | EmptyString => Some v
      | _ => None
      end
  | None => None
  end.

Fixpoint assoc {A} (k : string) (l : list (string * A)) : option A :=
  match l with
  | [] => None
  | (k', v) :: rest => if String.eqb k k' then Some v else assoc k rest
  end.

(** [json.loads(line)[key]] when that is a string. *)
Definition field (key line : string) : option string :=
  match loads line with
  | Some (JObject ms) =>
      match assoc key ms with
      | Some (JString v) => Some v
      | _ => None
      end
  | _ => None
  end.

End Json.

(** ** Python's [logging], as far as the program reaches into it *)

Module Logging.

Definition NOTSET : Z := 0.
Definition DEBUG : Z := 10.
Definition INFO : Z := 20.
Definition WARNING : Z := 30.
Definition ERROR : Z := 40.
Definition CRITICAL : Z := 50.

(** [logging.getLevelName] *)
Definition getLevelName (level : Z) : string :=
  if level =? CRITICAL then "CRITICAL"
  else if level =? ERROR then "ERROR"
  else if level =? WARNING then "WARNING"
  else if level =? INFO then "INFO"
  else if level =? DEBUG then "DEBUG"
  else if level =? NOTSET then "NOTSET"
  else "Level " +:+ pad0 0 level.

Definition BASIC_FORMAT : string := "%(levelname)s:%(name)s:%(message)s".

Inductive Stream :=
| FileStream (path : string)
| StderrStream.

(** A [StreamHandler] or [FileHandler] with its [Formatter]. *)
Record Handler := {
  h_level : Z;
  h_stream : Stream;
  h_fmt : string
}.

(** The root logger: the one object that holds the configuration. *)
Record Logger := {
  l_level : Z;
  l_handlers : list Handler
}.

Record LogRecord := {
  r_name : string;
  r_levelno : Z;
  r_msg : string;
  r_created : Z
}.

(** What the process does that can be seen from outside, in order. *)
Inductive Event :=
| EvOpen (path : string)
| EvLog (levelno : Z) (msg : string)
| EvWrite (path : string) (data : string)
| EvSleep (secs : Z).

Record World := {
  w_fs : FS;
  w_stderr : string;
  w_root : Logger;
  w_reads : nat;
  w_trace : list Event
}.

(** A freshly started interpreter on the file system [fs], the imports of
    lines 1 and 2 done: the root logger has level WARNING and no handler, and
    the readings of the clock are counted from here. *)
Definition boot (fs : FS) : World :=
  {| w_fs := fs; w_stderr := EmptyString;
     w_root := {| l_level := WARNING; l_handlers := [] |};
     w_reads := O; w_trace := [] |}.

(** *** Calls that may raise *)

Inductive Outcome (A : Type) :=
| Done (a : A) (w : World)
| Raised (e : OSError) (w : World).
Arguments Done {A} a w.
Arguments Raised {A} e w.

Definition M (A : Type) : Type := World -> Outcome A.

Definition ret {A} (a : A) : M A := fun w => Done a w.

Definition bind {A B} (m : M A) (k : A -> M B) : M B :=
  fun w =>
    match m w with
    | Done a w' => k a w'
    | Raised e w' => Raised e w'
    end.

Definition raise {A} (e : OSError) : M A := fun w => Raised e w.
Definition gets {A} (f : World -> A) : M A := fun w => Done (f w) w.
Definition modify (f : World -> World) : M unit := fun w => Done tt (f w).

Notation "m >>= k" := (bind m k) (at level 58, left associativity).
Notation "m >>> k" := (bind m (fun _ => k)) (at level 58, left associativity).

Definition log_event (e : Event) : M unit :=
  modify (fun w =>
    {| w_fs := w_fs w; w_stderr := w_stderr w; w_root := w_root w;
       w_reads := w_reads w; w_trace := w_trace w ++ [e] |}).

Definition set_fs (fs : FS) : M unit :=
  modify (fun w =>
    {| w_fs := fs; w_stderr := w_stderr w; w_root := w_root w;
       w_reads := w_reads w; w_trace := w_trace w |}).

Definition set_root (l : Logger) : M unit :=
  modify (fun w =>
    {| w_fs := w_fs w; w_stderr := w_stderr w; w_root := l;
       w_reads := w_reads w; w_trace := w_trace w |}).

Definition write_stderr (data : string) : M unit :=
  modify (fun w =>
    {| w_fs := w_fs w; w_stderr := w_stderr w +:+ data; w_root := w_root w;
       w_reads := w_reads w; w_trace := w_trace w |}).

(** [time.time()]: the next reading of the wall clock. *)
Definition time_time (env : Env) : M Z :=
  fun w =>
    Done (clock env (w_reads w))
      {| w_fs := w_fs w; w_stderr := w_stderr w; w_root := w_root w;
         w_reads := S (w_reads w); w_trace := w_trace w |}.

(** [time.sleep(secs)]: nothing of the world changes but the time. *)
Definition sleep (secs : Z) : M unit := log_event (EvSleep secs).

(** The characters a rendered time stamp is made of. *)
Definition stamp_char (c : ascii) : bool :=
  Json.is_digit c || mem_char c "-: ,".

(** *** [%]-formatting of a template with a dictionary *)

Inductive fmt_mode :=
| Lit
| Pct
| Key (acc : string)
| Conv (key : string).

(** [template % d] for the [%(key)s] and [%%] conversions, in one pass;
    [None] stands for the [KeyError] or [ValueError] Python raises. The
    values are inserted as they are: nothing is escaped. *)
Fixpoint percent_format (d : list (string * string)) (m : fmt_mode) (template : string)
  : option string :=
  match template with
  | EmptyString => match m with Lit => Some EmptyString | _ => None end
  | String c rest =>
      match m with
      | Lit =>
          if Ascii.eqb c "%" then percent_format d Pct rest
          else String c <$> percent_format d Lit rest
      | Pct =>
          if Ascii.eqb c "(" then percent_format d (Key EmptyString) rest
          else if Ascii.eqb c "%" then String c <$> percent_format d Lit rest
          else None
      | Key acc =>
          if Ascii.eqb c ")" then percent_format d (Conv acc) rest
          else percent_format d (Key (acc +:+ String c EmptyString)) rest
      | Conv key =>
          if Ascii.eqb c "s"
          then match Json.assoc key d with
               | Some v => String.append v <$> percent_format d Lit rest
               | None => None
               end
          else None
      end
  end.

(** [Formatter.formatTime] with the default [datefmt] and
    [default_msec_format = '%s,%03d'], for readings at or after the epoch
    (before it, [time.localtime] rounds the seconds down, not to zero). *)
Definition formatTime (env : Env) (created : Z) : string :=
  strftime (localtime env (Z.quot created 1000)) +:+ "," +:+ pad0 3 (Z.rem created 1000).

(** The entries of [record.__dict__] a template can name here. *)
Definition record_dict (env : Env) (r : LogRecord) : list (string * string) :=
  [ ("name"%string, r_name r);
    ("levelno"%string, pad0 0 (r_levelno r));
    ("levelname"%string, getLevelName (r_levelno r));
    ("message"%string, r_msg r);
    ("asctime"%string, formatTime env (r_created r)) ].

(** [Formatter.format] *)
Definition format (env : Env) (fmt : string) (r : LogRecord) : option string :=
  percent_format (record_dict env r) Lit fmt.

(** [StreamHandler.emit]: format, write the text and the terminator, flush;
    a failure goes to [handleError], which reports on stderr and goes on.
    The failure there is here is that of the format (a key the record does
    not have); a write to an open file and the conversion of a reading of
    the clock are taken to succeed. *)
Definition emit (env : Env) (h : Handler) (r : LogRecord) : M unit :=
  match format env (h_fmt h) r with
  | Some msg =>
      match h_stream h with
      | FileStream path =>
          gets w_fs >>= fun fs =>
          set_fs (append_data path (msg +:+ NL) fs) >>>
          log_event (EvWrite path (msg +:+ NL))
      | StderrStream => write_stderr (msg +:+ NL)
      end
  | None => write_stderr ("--- Logging error ---" +:+ NL)
  end.

(** [Logger.callHandlers] *)
Fixpoint callHandlers (env : Env) (hs : list Handler) (r : LogRecord) : M unit :=
  match hs with
  | [] => ret tt
  | h :: rest =>
      (if r_levelno r >=? h_level h then emit env h r else ret tt) >>>
      callHandlers env rest r
  end.

(** [Logger.isEnabledFor] on the root logger. *)
Definition isEnabledFor (l : Logger) (level : Z) : bool := level >=? l_level l.

(** [Logger._log]: the record is made, and the clock read, only here. *)
Definition Logger_log (env : Env) (level : Z) (msg : string) : M unit :=
  time_time env >>= fun ct =>
  gets w_root >>= fun root =>
  callHandlers env (l_handlers root)
    {| r_name := "root"; r_levelno := level; r_msg := msg; r_created := ct |}.

(** [FileHandler(filename, mode='a')]: the file is opened at once. *)
Definition FileHandler (filename : string) (fmt : string) : M Handler :=
  log_event (EvOpen filename) >>>
  gets w_fs >>= fun fs =>
  match open_append filename fs with
  | inl e => raise e
  | inr fs' =>
      set_fs fs' >>>
      ret {| h_level := NOTSET; h_stream := FileStream filename; h_fmt := fmt |}
  end.

(** [logging.basicConfig(filename=..., level=..., format=...)]: does nothing
    when the root logger already has a handler. *)
Definition basicConfig (filename : option string) (level : option Z) (fmt : option string)
  : M unit :=
  gets w_root >>= fun root =>
  match l_handlers root with
  | _ :: _ => ret tt
  | [] =>
      let fs := default BASIC_FORMAT fmt in
      (match filename with
       | Some f => FileHandler f fs
       | None => ret {| h_level := NOTSET; h_stream := StderrStream; h_fmt := fs |}
       end) >>= fun h =>
      set_root {| l_level := l_level root; l_handlers := l_handlers root ++ [h] |} >>>
      match level with
      | Some lv =>
          gets w_root >>= fun root' =>
          set_root {| l_level := lv; l_handlers := l_handlers root' |}
      | None => ret tt
      end
  end.

(** The module-level [logging.log]-family functions: configure the root
    logger if nobody has, then [root.log(level, msg)]. *)
Definition log (env : Env) (level : Z) (msg : string) : M unit :=
  log_event (EvLog level msg) >>>
  gets w_root >>= fun root =>
  (match l_handlers root with
   | [] => basicConfig None None None
   | _ :: _ => ret tt
   end) >>>
  gets w_root >>= fun root' =>
  if isEnabledFor root' level then Logger_log env level msg else ret tt.

Definition debug (env : Env) (msg : string) : M unit := log env DEBUG msg.
Definition warning (env : Env) (msg : string) : M unit := log env WARNING msg.

End Logging.
Import Logging.

(** ** The program *)

Module App3.

Definition LOG_FILE : string := "/tmp/app-logs/app3.log".

(** The [format=] argument, line 6. *)
Definition FORMAT : string :=
  Eval vm_compute in
    ("{" +:+ DQ +:+ "timestamp" +:+ DQ +:+ ": " +:+ DQ +:+ "%(asctime)s" +:+ DQ
     +:+ ", " +:+ DQ +:+ "level" +:+ DQ +:+ ": " +:+ DQ +:+ "%(levelname)s" +:+ DQ
     +:+ ", " +:+ DQ +:+ "message" +:+ DQ +:+ ": " +:+ DQ +:+ "%(message)s" +:+ DQ +:+ "}").

Definition DEBUG_MSG : string := "This is an info log from app3".
Definition WARN_MSG : string := "This is an warn log from app3".
Definition SLEEP_SECS : Z := 3.

(** The line template in the words of the specification: the three fields
    in this order, each between double quotes. *)
Definition template (ts lvl msg : string) : string :=
  "{" +:+ DQ +:+ "timestamp" +:+ DQ +:+ ": " +:+ DQ +:+ ts +:+ DQ
  +:+ ", " +:+ DQ +:+ "level" +:+ DQ +:+ ": " +:+ DQ +:+ lvl +:+ DQ
  +:+ ", " +:+ DQ +:+ "message" +:+ DQ +:+ ": " +:+ DQ +:+ msg +:+ DQ +:+ "}".

(** The four statements, by their line in [src/app.py]. *)
Inductive PC :=
| L4_basicConfig
| L9_debug
| L10_warning
| L11_sleep.

Definition exec (env : Env) (pc : PC) : M unit :=
  match pc with
  | L4_basicConfig => basicConfig (Some LOG_FILE) (Some INFO) (Some FORMAT)
  | L9_debug => debug env DEBUG_MSG
  | L10_warning => warning env WARN_MSG
  | L11_sleep => sleep SLEEP_SECS
  end.

(** [while True:] has no test that can fail: after line 11 comes line 9. *)
Definition next (pc : PC) : PC :=
  match pc with
  | L4_basicConfig => L9_debug
  | L9_debug => L10_warning
  | L10_warning => L11_sleep
  | L11_sleep => L9_debug
  end.

(** The process: at a statement, or dead of an exception nobody caught. *)
Inductive Proc :=
| Running (pc : PC) (w : World)
| Crashed (e : OSError) (w : World).

(** One statement; a dead process has no step. *)
Definition step (env : Env) (p : Proc) : option Proc :=
  match p with
  | Running pc w =>
      Some match exec env pc w with
           | Done _ w' => Running (next pc) w'
           | Raised e w' => Crashed e w'
           end
  | Crashed _ _ => None
  end.

Fixpoint steps (env : Env) (n : nat) (p : Proc) : option Proc :=
  match n with
  | O => Some p
  | S n' =>
      match step env p with
      | Some p' => steps env n' p'
      | None => None
      end
  end.

(** The process started on [fs]. *)
Definition start (fs : FS) : Proc := Running L4_basicConfig (boot fs).

(** The state after line 4 and [n] full turns of the loop. *)
Definition after_cycles (env : Env) (n : nat) (fs : FS) : option Proc :=
  steps env (1 + 3 * n) (start fs).

(** The exit status the shell sees: 1 for an uncaught exception; a running
    process has none. *)
Definition exit_status (p : Proc) : option Z :=
  match p with
  | Running _ _ => None
  | Crashed _ _ => Some 1
  end.

Definition world_of (p : Proc) : World :=
  match p with
  | Running _ w => w
  | Crashed _ w => w
  end.

(** The text of the destination file. *)
Definition log_text (p : Proc) : string := read_text LOG_FILE (w_fs (world_of p)).

(** The root logger as line 4 leaves it. *)
Definition configured : Logger :=
  {| l_level := INFO;
     l_handlers := [ {| h_level := NOTSET; h_stream := FileStream LOG_FILE; h_fmt := FORMAT |} ] |}.

(** The line of the [k]-th turn of the loop: the template filled with the
    [k]-th reading of the clock and the two literals of line 10. *)
Definition warning_line (env : Env) (k : nat) : string :=
  template (formatTime env (clock env k)) "WARNING" WARN_MSG.

(** What the [k]-th turn of the loop does, as seen from outside. *)
Definition cycle_events (env : Env) (k : nat) : list Event :=
  [ EvLog DEBUG DEBUG_MSG; EvLog WARNING WARN_MSG;
    EvWrite LOG_FILE (warning_line env k +:+ NL); EvSleep SLEEP_SECS ].

(** The lines of the first [n] turns. *)
Definition emitted (env : Env) (n : nat) : list string :=
  map (warning_line env) (seq 0 n).

Definition write_line (fs : FS) (l : string) : FS := append_data LOG_FILE (l +:+ NL) fs.

(** The world after a successful line 4 (which left the file system [fs1])
    and [n] turns of the loop. *)
Definition loop_world (env : Env) (fs1 : FS) (n : nat) : World :=
  {| w_fs := fold_left write_line (emitted env n) fs1;
     w_stderr := EmptyString;
     w_root := configured;
     w_reads := n;
     w_trace := EvOpen LOG_FILE :: flat_map (cycle_events env) (seq 0 n) |}.

(** The world in which an uncaught exception of line 4 leaves the process:
    nothing done but the attempt to open the file. ([w_stderr] is what the
    logging layer has written there; the traceback the interpreter prints
    on its way out is not part of it.) *)
Definition crash_world (fs : FS) : World :=
  {| w_fs := fs; w_stderr := EmptyString;
     w_root := {| l_level := WARNING; l_handlers := [] |};
     w_reads := O; w_trace := [EvOpen LOG_FILE] |}.

(** The level and the message a consumer reads on a line. *)
Definition line_level (l : string) : option string := Json.field "level" l.
Definition line_message (l : string) : option string := Json.field "message" l.
Definition line_timestamp (l : string) : option string := Json.field "timestamp" l.

Definition is_log_call (level : Z) (e : Event) : bool :=
  match e with
  | EvLog lv _ => lv =? level
  | _ => false
  end.

Definition is_write (e : Event) : bool :=
  match e with
  | EvWrite _ _ => true
  | _ => false
  end.

Definition is_open (e : Event) : bool :=
  match e with
  | EvOpen _ => true
  | _ => false
  end.

Definition is_warning_line (l : string) : bool :=
  match line_level l with
  | Some lvl => String.eqb lvl "WARNING"
  | None => false
  end.

(** The lines of level WARNING in a text. *)
Definition warning_lines (text : string) : list string :=
  List.filter is_warning_line (split_lines text).

Fixpoint sorted_by {A} (le : A -> A -> bool) (l : list A) : bool :=
  match l with
  | [] => true
  | x :: rest =>
      match rest with
      | [] => true
      | y :: _ => le x y && sorted_by le rest
      end
  end.

(** The time stamps of the lines of a text, in the order of the file, are
    in non-decreasing order (as texts: with four-digit years that is the
    order of the dates they spell). *)
Definition stamps_sorted (text : string) : bool :=
  sorted_by String.leb (omap line_timestamp (split_lines text)).

End App3.
Import App3.

(** ** Some hosts *)

Module Scenarios.

Definition LOG_DIR : string := "/tmp/app-logs".

(** A host on UTC whose clock reads 2023-11-14 22:13:20.123 first and three
    seconds more at every later reading. *)
Definition steady_env : Env :=
  {| clock := fun k => 1700000000123 + 3000 * Z.of_nat k; localtime := gmtime |}.

(** A host on UTC whose clock is set back by five seconds between the first
    reading and the second. *)
Definition set_back_env : Env :=
  {| clock := fun k => match k with O => 1700000005000 | S _ => 1700000000000 end;
     localtime := gmtime |}.

(** A writable directory with no log file yet. *)
Definition fresh_fs : FS :=
  {| dirs := {[ LOG_DIR := true ]}; files := ∅ |}.

(** The same after [open(LOG_FILE, 'a')]: the file is there, empty. *)
Definition fresh_fs_opened : FS :=
  {| dirs := {[ LOG_DIR := true ]};
     files := {[ LOG_FILE := {| f_data := EmptyString; f_writable := true |} ]} |}.

(** A writable directory in which an earlier run has left one line. *)
Definition used_fs : FS :=
  {| dirs := {[ LOG_DIR := true ]};
     files := {[ LOG_FILE :=
                   {| f_data := template "2023-11-14 22:00:00,000" "WARNING" WARN_MSG +:+ NL;
                      f_writable := true |} ]} |}.

(** No directory [/tmp/app-logs]. *)
Definition no_dir_fs : FS :=
  {| dirs := {[ "/tmp"%string := true ]}; files := ∅ |}.

(** A directory the process may not write, with no log file in it. *)
Definition locked_dir_fs : FS :=
  {| dirs := {[ LOG_DIR := false ]}; files := ∅ |}.

(** A directory the process may not write, in which the log file exists
    and is writable (created for the process by an administrator). *)
Definition locked_dir_own_file_fs : FS :=
  {| dirs := {[ LOG_DIR := false ]};
     files := {[ LOG_FILE := {| f_data := EmptyString; f_writable := true |} ]} |}.

(** A record whose message holds a double quote. *)
Definition quoting_record : LogRecord :=
  {| r_name := "root"; r_levelno := WARNING;
     r_msg := "say " +:+ DQ +:+ "hi" +:+ DQ; r_created := 1700000000123 |}.

End Scenarios.
Import Scenarios.

(** ** What an observer of a run measures *)

Module Observations.

Definition is_sleep (e : Event) : bool :=
  match e with
  | EvSleep _ => true
  | _ => false
  end.

(** The seconds of sleep asked for in a trace. *)
Fixpoint total_sleep (tr : list Event) : Z :=
  match tr with
  | [] => 0
  | EvSleep secs :: rest => secs + total_sleep rest
  | _ :: rest => total_sleep rest
  end.

(** A broken-down time as [time.localtime] returns it for the years of four
    digits: month 1 to 12, day 1 to 31, hour 0 to 23, minute 0 to 59,
    second 0 to 61. *)
Definition civil_time (t : struct_time) : bool :=
  (1000 <=? tm_year t) && (tm_year t <=? 9999)
  && (1 <=? tm_mon t) && (tm_mon t <=? 12)
  && (1 <=? tm_mday t) && (tm_mday t <=? 31)
  && (0 <=? tm_hour t) && (tm_hour t <=? 23)
  && (0 <=? tm_min t) && (tm_min t <=? 59)
  && (0 <=? tm_sec t) && (tm_sec t <=? 61).

(** A text that is empty or whose last character is a newline. *)
Definition newline_terminated (s : string) : Prop :=
  s = EmptyString \/ exists a, s = a +:+ NL.

End Observations.
Import Observations.

(** ** Local time and real time *)

Module Clocks.

(** The local time a reading is printed as, from the year down to the
    millisecond. *)
Definition time_key (env : Env) (ct : Z) : list Z :=
  let t := localtime env (Z.quot ct 1000) in
  [ tm_year t; tm_mon t; tm_mday t; tm_hour t; tm_min t; tm_sec t; Z.rem ct 1000 ].

Fixpoint lex_le (a b : list Z) : bool :=
  match a, b with
  | x :: a', y :: b' => (x <? y) || ((x =? y) && lex_le a' b')
  | _, _ => true
  end.

(** The local time of the reading [ct] is not after that of [ct']. *)
Definition local_time_le (env : Env) (ct ct' : Z) : bool :=
  lex_le (time_key env ct) (time_key env ct').

(** A reading at or after the epoch whose local time has a year of four
    digits. *)
Definition legible (env : Env) (ct : Z) : bool :=
  (0 <=? ct) && civil_time (localtime env (Z.quot ct 1000)).

(** A host two hours ahead of UTC until 2023-10-29 01:00:00 UTC and one
    hour ahead from then on (the end of summer time), whose clock is never
    set back: it reads 00:59:57 UTC and then, three seconds later,
    01:00:00 UTC. *)
Definition summer_time_ends_env : Env :=
  {| clock := fun k => 1698541197000 + 3000 * Z.of_nat k;
     localtime := fun s => gmtime (s + (if s <? 1698541200 then 7200 else 3600)) |}.





End Clocks.
Import Clocks.

(** * Properties *)

#[local] Arguments String.append !s1 s2 : simpl nomatch.

(** ** Strings *)

Section StringFacts.

Lemma append_nil_r (s : string) : s +:+ EmptyString = s.
Proof. induction s as [|c s IH]; simpl; [reflexivity | now rewrite IH]. Qed.

Lemma append_assoc (a b c : string) : (a +:+ b) +:+ c = a +:+ (b +:+ c).
Proof. induction a as [|x a IH]; simpl; [reflexivity | now rewrite IH]. Qed.

Lemma all_chars_append (p : ascii -> bool) (a b : string) :
  all_chars p (a +:+ b) = all_chars p a && all_chars p b.
Proof.
  induction a as [|x a IH]; simpl; [reflexivity|].
  rewrite IH. now rewrite andb_assoc.
Qed.

Lemma all_chars_impl (p q : ascii -> bool) (s : string) :
  (forall c, p c = true -> q c = true) ->
  all_chars p s = true -> all_chars q s = true.
Proof.
  intros Hpq. induction s as [|c s IH]; simpl; [reflexivity|].
  intros [Hc Hs]%andb_true_iff. rewrite (Hpq c Hc). now apply IH.
Qed.

End StringFacts.

(** ** Rendering of time stamps *)

Section TimeFacts.

Lemma stamp_char_plain (c : ascii) : stamp_char c = true -> Json.plain_char c = true.
Proof.
  destruct c as [[] [] [] [] [] [] [] []]; vm_compute; congruence.
Qed.

Lemma stamp_char_not_newline (c : ascii) :
  stamp_char c = true -> Ascii.eqb c newline = false.
Proof.
  destruct c as [[] [] [] [] [] [] [] []]; vm_compute; congruence.
Qed.

Lemma digits_of_uint (d : Decimal.uint) :
  all_chars Json.is_digit (NilEmpty.string_of_uint d) = true.
Proof. induction d; simpl; auto. Qed.

Lemma str_of_N_digits (n : N) : all_chars Json.is_digit (str_of_N n) = true.
Proof.
  unfold str_of_N, NilZero.string_of_uint.
  destruct (N.to_uint n) eqn:E; try reflexivity;
    rewrite <- E; (* the head digit and its tail *)
    rewrite E; apply (digits_of_uint (_ : Decimal.uint)).
Qed.

Lemma zeros_digits (k : nat) : all_chars Json.is_digit (zeros k) = true.
Proof. induction k; simpl; auto. Qed.

Lemma pad0_stamp (w : nat) (z : Z) : all_chars stamp_char (pad0 w z) = true.
Proof.
  assert (Hd : forall s, all_chars Json.is_digit s = true -> all_chars stamp_char s = true).
  { intros s. apply all_chars_impl. intros c Hc. unfold stamp_char. now rewrite Hc. }
  unfold pad0. destruct (z <? 0).
  - simpl. rewrite all_chars_append.
    rewrite (Hd _ (zeros_digits _)), (Hd _ (str_of_N_digits _)). reflexivity.
  - rewrite all_chars_append.
    rewrite (Hd _ (zeros_digits _)), (Hd _ (str_of_N_digits _)). reflexivity.
Qed.

Lemma strftime_stamp (t : struct_time) : all_chars stamp_char (strftime t) = true.
Proof.
  unfold strftime. rewrite !all_chars_append, !pad0_stamp. reflexivity.
Qed.

Lemma formatTime_stamp (env : Env) (ct : Z) :
  all_chars stamp_char (formatTime env ct) = true.
Proof.
  unfold formatTime. rewrite !all_chars_append, pad0_stamp, strftime_stamp. reflexivity.
Qed.

End TimeFacts.

(** ** Lines as JSON *)

Section JsonFacts.
Import Json.

Lemma parse_chars_plain (s rest : string) :
  all_chars plain_char s = true ->
  parse_chars SPlain (s +:+ String dquote rest) = Some (s, rest).
Proof.
  induction s as [|c s IH]; simpl; intros H.
  - reflexivity.
  - apply andb_true_iff in H as [Hc Hs].
    pose proof Hc as Hc'. unfold plain_char in Hc'.
    apply andb_true_iff in Hc' as [Hc' Hb]. apply andb_true_iff in Hc' as [_ Hq].
    apply negb_true_iff in Hq, Hb.
    rewrite Hq, Hb, Hc, (IH Hs). reflexivity.
Qed.

Lemma member_last (f : nat) (name val rest : string) :
  all_chars plain_char name = true ->
  all_chars plain_char val = true ->
  parse_members (S (S f))
    (String dquote (name +:+ String dquote (String ":" (String " "
       (String dquote (val +:+ String dquote (String "}" rest)))))))
  = Some ([(name, JString val)], rest).
Proof.
  intros Hn Hv.
  simpl.
  rewrite (parse_chars_plain _ _ Hn). simpl.
  rewrite (parse_chars_plain _ _ Hv). simpl.
  reflexivity.
Qed.

Lemma member_more (f : nat) (name val more : string) :
  all_chars plain_char name = true ->
  all_chars plain_char val = true ->
  parse_members (S (S f))
    (String dquote (name +:+ String dquote (String ":" (String " "
       (String dquote (val +:+ String dquote (String "," (String " " (String dquote more)))))))))
  = match parse_members (S f) (String dquote more) with
    | Some (ms, r) => Some ((name, JString val) :: ms, r)
    | None => None
    end.
Proof.
  intros Hn Hv.
  simpl.
  rewrite (parse_chars_plain _ _ Hn). simpl.
  rewrite (parse_chars_plain _ _ Hv). simpl.
  reflexivity.
Qed.

Lemma parse_value_template (f : nat) (ts lvl msg : string) :
  all_chars plain_char ts = true ->
  all_chars plain_char lvl = true ->
  all_chars plain_char msg = true ->
  parse_value (S (S (S (S (S f))))) (template ts lvl msg)
  = Some (JObject [("timestamp"%string, JString ts); ("level"%string, JString lvl);
                   ("message"%string, JString msg)], EmptyString).
Proof.
  intros Hts Hlvl Hmsg.
  change (template ts lvl msg) with
    (String "{" (String dquote ("timestamp" +:+ String dquote (String ":" (String " "
       (String dquote (ts +:+ String dquote (String "," (String " " (String dquote
       ("level" +:+ String dquote (String ":" (String " "
       (String dquote (lvl +:+ String dquote (String "," (String " " (String dquote
       ("message" +:+ String dquote (String ":" (String " "
       (String dquote (msg +:+ String dquote (String "}" EmptyString)))))))))))))))))))))))).
  change (parse_value (S (S (S (S (S f))))) (String "{" (String dquote ?x))) with
    (match parse_members (S (S (S (S f)))) (String dquote x) with
     | Some (ms, r3) => Some (JObject ms, r3)
     | None => None
     end).
  rewrite (member_more _ "timestamp" ts) by (reflexivity || assumption).
  rewrite (member_more _ "level" lvl) by (reflexivity || assumption).
  rewrite (member_last _ "message" msg) by (reflexivity || assumption).
  reflexivity.
Qed.

Lemma length_template_fuel (ts lvl msg : string) :
  exists f, S (String.length (template ts lvl msg)) = S (S (S (S (S f)))).
Proof. eexists. unfold template. simpl. reflexivity. Qed.

Lemma loads_template (ts lvl msg : string) :
  all_chars plain_char ts = true ->
  all_chars plain_char lvl = true ->
  all_chars plain_char msg = true ->
  loads (template ts lvl msg)
  = Some (JObject [("timestamp"%string, JString ts); ("level"%string, JString lvl);
                   ("message"%string, JString msg)]).
Proof.
  intros Hts Hlvl Hmsg. unfold loads.
  destruct (length_template_fuel ts lvl msg) as [f ->].
  rewrite parse_value_template by assumption. reflexivity.
Qed.
End JsonFacts.

(** ** Lines of a text *)

Section LineFacts.

Lemma split_lines_acc_line (cur : string -> string) (l rest : string) :
  all_chars no_newline l = true ->
  split_lines_acc cur (l +:+ String newline rest)
  = cur l :: split_lines_acc (fun t => t) rest.
Proof.
  revert cur. induction l as [|c l IH]; intros cur H.
  - reflexivity.
  - simpl in H. apply andb_true_iff in H as [Hc Hl].
    unfold no_newline in Hc. apply negb_true_iff in Hc.
    simpl. rewrite Hc. now rewrite (IH (fun t => cur (String c t)) Hl).
Qed.

Lemma unlines_cons (l : string) (ls : list string) :
  unlines (l :: ls) = l +:+ String newline (unlines ls).
Proof. reflexivity. Qed.

Lemma unlines_app (xs ys : list string) :
  unlines (xs ++ ys) = unlines xs +:+ unlines ys.
Proof.
  induction xs as [|x xs IH]; [reflexivity|].
  change ((x :: xs) ++ ys) with (x :: (xs ++ ys)).
  rewrite !unlines_cons, IH, append_assoc. reflexivity.
Qed.

Lemma split_lines_unlines (ls : list string) :
  Forall (fun l => all_chars no_newline l = true) ls ->
  split_lines (unlines ls) = ls.
Proof.
  unfold split_lines. induction 1 as [|l ls Hl _ IH]; [reflexivity|].
  rewrite unlines_cons, split_lines_acc_line by exact Hl.
  now rewrite IH.
Qed.

Lemma template_no_newline (ts lvl msg : string) :
  all_chars no_newline ts = true ->
  all_chars no_newline lvl = true ->
  all_chars no_newline msg = true ->
  all_chars no_newline (template ts lvl msg) = true.
Proof.
  intros Hts Hlvl Hmsg. unfold template.
  rewrite !all_chars_append, Hts, Hlvl, Hmsg. reflexivity.
Qed.

End LineFacts.

(** ** The file system *)

Section FsFacts.

Lemma read_text_append_data (p d : string) (fs : FS) :
  is_Some (files fs !! p) ->
  read_text p (append_data p d fs) = read_text p fs +:+ d.
Proof.
  intros [f Hf]. unfold read_text, append_data. simpl.
  rewrite lookup_alter_eq, Hf. reflexivity.
Qed.

Lemma append_data_keeps (p d : string) (fs : FS) :
  is_Some (files fs !! p) -> is_Some (files (append_data p d fs) !! p).
Proof.
  intros [f Hf]. unfold append_data. simpl.
  rewrite lookup_alter_eq, Hf. eexists. reflexivity.
Qed.

Lemma append_data_other (p q d : string) (fs : FS) :
  p <> q -> files (append_data p d fs) !! q = files fs !! q.
Proof. intros Hpq. unfold append_data. simpl. now rewrite lookup_alter_ne. Qed.

Lemma append_data_dirs (p d : string) (fs : FS) :
  dirs (append_data p d fs) = dirs fs.
Proof. reflexivity. Qed.

Lemma open_append_ok (p : string) (fs fs1 : FS) :
  open_append p fs = inr fs1 ->
  is_Some (files fs1 !! p)
  /\ read_text p fs1 = read_text p fs
  /\ dirs fs1 = dirs fs
  /\ forall q, p <> q -> files fs1 !! q = files fs !! q.
Proof.
  unfold open_append, read_text.
  destruct (dirs fs !! dirname p) as [[]|]; [| |discriminate];
    destruct (files fs !! p) as [f|] eqn:Hf;
    try destruct (f_writable f); intros H; simplify_eq; simpl;
    rewrite ?Hf, ?lookup_insert_eq; repeat split; eauto;
    intros q Hq; now rewrite lookup_insert_ne.
Qed.

End FsFacts.

(** ** The line the program writes *)

Section WarningLineFacts.

Lemma stamp_plain (s : string) :
  all_chars stamp_char s = true -> all_chars Json.plain_char s = true.
Proof. apply all_chars_impl, stamp_char_plain. Qed.

Lemma stamp_no_newline (s : string) :
  all_chars stamp_char s = true -> all_chars no_newline s = true.
Proof.
  apply all_chars_impl. intros c Hc. unfold no_newline.
  now rewrite (stamp_char_not_newline c Hc).
Qed.

Lemma warning_line_loads (env : Env) (k : nat) :
  Json.loads (warning_line env k)
  = Some (Json.JObject
            [ ("timestamp"%string, Json.JString (formatTime env (clock env k)));
              ("level"%string, Json.JString "WARNING");
              ("message"%string, Json.JString WARN_MSG) ]).
Proof.
  unfold warning_line. apply loads_template.
  - apply stamp_plain, formatTime_stamp.
  - reflexivity.
  - reflexivity.
Qed.

Lemma warning_line_level (env : Env) (k : nat) :
  line_level (warning_line env k) = Some "WARNING"%string.
Proof. unfold line_level, Json.field. now rewrite warning_line_loads. Qed.

Lemma warning_line_message (env : Env) (k : nat) :
  line_message (warning_line env k) = Some WARN_MSG.
Proof. unfold line_message, Json.field. now rewrite warning_line_loads. Qed.

Lemma warning_line_timestamp (env : Env) (k : nat) :
  line_timestamp (warning_line env k) = Some (formatTime env (clock env k)).
Proof. unfold line_timestamp, Json.field. now rewrite warning_line_loads. Qed.

Lemma warning_line_no_newline (env : Env) (k : nat) :
  all_chars no_newline (warning_line env k) = true.
Proof.
  unfold warning_line. apply template_no_newline.
  - apply stamp_no_newline, formatTime_stamp.
  - reflexivity.
  - reflexivity.
Qed.

Lemma emitted_no_newline (env : Env) (n : nat) :
  Forall (fun l => all_chars no_newline l = true) (emitted env n).
Proof.
  unfold emitted. induction (seq 0 n) as [|k ks IH]; simpl; constructor.
  - apply warning_line_no_newline.
  - exact IH.
Qed.

Lemma emitted_S (env : Env) (n : nat) :
  emitted env (S n) = emitted env n ++ [warning_line env n].
Proof. unfold emitted. rewrite seq_S, map_app. reflexivity. Qed.

Lemma emitted_length (env : Env) (n : nat) : length (emitted env n) = n.
Proof. unfold emitted. now rewrite length_map, length_seq. Qed.

End WarningLineFacts.

(** ** Statement by statement *)

Section ProgramFacts.

Lemma format_template (env : Env) (r : LogRecord) :
  format env FORMAT r
  = Some (template (formatTime env (r_created r)) (getLevelName (r_levelno r)) (r_msg r)).
Proof. reflexivity. Qed.

Lemma config_ok (env : Env) (fs fs1 : FS) :
  open_append LOG_FILE fs = inr fs1 ->
  exec env L4_basicConfig (boot fs) = Done tt (loop_world env fs1 0).
Proof.
  intros H. unfold exec, basicConfig, boot, bind, gets. simpl.
  unfold FileHandler, bind, log_event, modify, gets. simpl.
  rewrite H. reflexivity.
Qed.

Lemma config_fails (env : Env) (fs : FS) (e : OSError) :
  open_append LOG_FILE fs = inl e ->
  exec env L4_basicConfig (boot fs) = Raised e (crash_world fs).
Proof.
  intros H. unfold exec, basicConfig, boot, bind, gets. simpl.
  unfold FileHandler, bind, log_event, modify, gets. simpl.
  rewrite H. reflexivity.
Qed.

(** One turn of the loop from a world whose root logger is configured. *)
Lemma turn (env : Env) (w : World) :
  w_root w = configured ->
  steps env 3 (Running L9_debug w)
  = Some (Running L9_debug
      {| w_fs := write_line (w_fs w) (warning_line env (w_reads w));
         w_stderr := w_stderr w;
         w_root := configured;
         w_reads := S (w_reads w);
         w_trace := w_trace w ++ cycle_events env (w_reads w) |}).
Proof.
  destruct w as [fs err root reads tr]. simpl. intros ->.
  unfold cycle_events.
  change (tr ++ [EvLog DEBUG DEBUG_MSG; EvLog WARNING WARN_MSG;
     EvWrite LOG_FILE (warning_line env reads +:+ NL); EvSleep SLEEP_SECS])
    with (tr ++ [EvLog DEBUG DEBUG_MSG] ++ [EvLog WARNING WARN_MSG] ++
     [EvWrite LOG_FILE (warning_line env reads +:+ NL)] ++ [EvSleep SLEEP_SECS]).
  rewrite !app_assoc.
  reflexivity.
Qed.

Lemma steps_add (env : Env) (a b : nat) (p : Proc) :
  steps env (a + b) p
  = match steps env a p with
    | Some q => steps env b q
    | None => None
    end.
Proof.
  revert p. induction a as [|a IH]; intros p; simpl; [reflexivity|].
  destruct (step env p); [apply IH | reflexivity].
Qed.

Lemma loop_world_S (env : Env) (fs1 : FS) (n : nat) :
  loop_world env fs1 (S n)
  = {| w_fs := write_line (w_fs (loop_world env fs1 n)) (warning_line env n);
       w_stderr := w_stderr (loop_world env fs1 n);
       w_root := configured;
       w_reads := S n;
       w_trace := w_trace (loop_world env fs1 n) ++ cycle_events env n |}.
Proof.
  unfold loop_world. simpl w_fs. simpl w_stderr. simpl w_trace.
  rewrite emitted_S, fold_left_app, seq_S, flat_map_app. reflexivity.
Qed.

Lemma turns (env : Env) (fs1 : FS) (n : nat) :
  steps env (3 * n) (Running L9_debug (loop_world env fs1 0))
  = Some (Running L9_debug (loop_world env fs1 n)).
Proof.
  induction n as [|n IH]; [reflexivity|].
  replace (3 * S n)%nat with (3 * n + 3)%nat by lia.
  rewrite steps_add, IH, turn by reflexivity.
  now rewrite loop_world_S.
Qed.

(** The whole run when line 4 succeeds. *)
Lemma run_ok (env : Env) (fs fs1 : FS) (n : nat) :
  open_append LOG_FILE fs = inr fs1 ->
  after_cycles env n fs = Some (Running L9_debug (loop_world env fs1 n)).
Proof.
  intros H. unfold after_cycles, start.
  change (steps env (1 + 3 * n) (Running L4_basicConfig (boot fs)))
    with (match step env (Running L4_basicConfig (boot fs)) with
          | Some p' => steps env (3 * n) p'
          | None => None
          end).
  unfold step. rewrite (config_ok env fs fs1 H). apply turns.
Qed.

(** The whole run when line 4 raises. *)
Lemma run_fails (env : Env) (fs : FS) (e : OSError) (n : nat) :
  open_append LOG_FILE fs = inl e ->
  after_cycles env n fs
  = match n with
    | O => Some (Crashed e (crash_world fs))
    | S _ => None
    end.
Proof.
  intros H. unfold after_cycles, start.
  destruct n as [|n].
  - change (steps env (1 + 3 * 0) (Running L4_basicConfig (boot fs)))
      with (step env (Running L4_basicConfig (boot fs)) ≫= Some).
    unfold step. now rewrite (config_fails env fs e H).
  - replace (1 + 3 * S n)%nat with (S (S (3 * n + 2))) by lia.
    change (steps env (S (S (3 * n + 2))) (Running L4_basicConfig (boot fs)))
      with (match step env (Running L4_basicConfig (boot fs)) with
            | Some p' => steps env (S (3 * n + 2)) p'
            | None => None
            end).
    unfold step. now rewrite (config_fails env fs e H).
Qed.

(** The text of the file, turn after turn. *)
Lemma fold_write_line_text (ls : list string) (fs1 : FS) :
  is_Some (files fs1 !! LOG_FILE) ->
  is_Some (files (fold_left write_line ls fs1) !! LOG_FILE)
  /\ read_text LOG_FILE (fold_left write_line ls fs1)
     = read_text LOG_FILE fs1 +:+ unlines ls.
Proof.
  revert fs1. induction ls as [|l ls IH]; intros fs1 Hf; simpl.
  - split; [exact Hf | now rewrite append_nil_r].
  - destruct (IH (write_line fs1 l)) as [H1 H2].
    { now apply append_data_keeps. }
    split; [exact H1|]. rewrite H2. unfold write_line.
    rewrite read_text_append_data by exact Hf.
    rewrite !append_assoc. reflexivity.
Qed.

Lemma fold_write_line_other (ls : list string) (fs1 : FS) (q : string) :
  LOG_FILE <> q ->
  files (fold_left write_line ls fs1) !! q = files fs1 !! q.
Proof.
  intros Hq. revert fs1. induction ls as [|l ls IH]; intros fs1; simpl; [reflexivity|].
  rewrite IH. now apply append_data_other.
Qed.

Lemma fold_write_line_dirs (ls : list string) (fs1 : FS) :
  dirs (fold_left write_line ls fs1) = dirs fs1.
Proof.
  revert fs1. induction ls as [|l ls IH]; intros fs1; simpl; [reflexivity|].
  now rewrite IH.
Qed.

Lemma loop_text (env : Env) (fs fs1 : FS) (n : nat) :
  open_append LOG_FILE fs = inr fs1 ->
  read_text LOG_FILE (w_fs (loop_world env fs1 n))
  = read_text LOG_FILE fs +:+ unlines (emitted env n).
Proof.
  intros H. destruct (open_append_ok _ _ _ H) as (Hs & Ht & _).
  simpl. destruct (fold_write_line_text (emitted env n) fs1 Hs) as [_ ->].
  now rewrite Ht.
Qed.

End ProgramFacts.

(** ** Suppression, emission and format *)

Section Lines.

Lemma emitted_level (env : Env) (n : nat) :
  Forall (fun l => line_level l = Some "WARNING"%string) (emitted env n).
Proof.
  unfold emitted. induction (seq 0 n) as [|k ks IH]; simpl; constructor.
  - apply warning_line_level.
  - exact IH.
Qed.

Lemma contains_append_l (a b m : string) : contains b m -> contains (a +:+ b) m.
Proof.
  intros (pre & post & ->). exists (a +:+ pre), post. now rewrite append_assoc.
Qed.

Lemma contains_head (m post : string) : contains (m +:+ post) m.
Proof. exists EmptyString, post. reflexivity. Qed.

Lemma contains_template_msg (ts lvl msg : string) : contains (template ts lvl msg) msg.
Proof.
  unfold template. do 22 apply contains_append_l. apply contains_head.
Qed.

(** C1. In every turn of the loop line 9 attempts one DEBUG record, with
    the message of the source; DEBUG is below the threshold INFO of the
    configured logger, so the call changes nothing but the list of
    attempts, and no line of DEBUG level is among the lines the program has
    appended to the destination file. *)
Theorem debug_attempted_once_never_written (env : Env) (fs fs1 : FS) (n : nat) :
  open_append LOG_FILE fs = inr fs1 ->
  exists w w' lines,
    after_cycles env n fs = Some (Running L9_debug w)
    /\ after_cycles env (S n) fs = Some (Running L9_debug w')
    /\ l_level (w_root w) = INFO /\ DEBUG < INFO
    /\ isEnabledFor (w_root w) DEBUG = false
    /\ exec env L9_debug w
       = Done tt {| w_fs := w_fs w; w_stderr := w_stderr w; w_root := w_root w;
                    w_reads := w_reads w;
                    w_trace := w_trace w ++ [EvLog DEBUG DEBUG_MSG] |}
    /\ (exists evs, w_trace w' = w_trace w ++ evs
                    /\ List.filter (is_log_call DEBUG) evs = [EvLog DEBUG DEBUG_MSG])
    /\ read_text LOG_FILE (w_fs w') = read_text LOG_FILE fs +:+ unlines lines
    /\ split_lines (unlines lines) = lines
    /\ Forall (fun l => line_level l <> Some "DEBUG"%string) lines.
Proof.
  intros H.
  exists (loop_world env fs1 n), (loop_world env fs1 (S n)), (emitted env (S n)).
  split; [now apply run_ok|]. split; [now apply run_ok|].
  split; [reflexivity|]. split; [reflexivity|]. split; [reflexivity|].
  split; [reflexivity|]. split.
  { exists (cycle_events env n). split; [|reflexivity].
    rewrite loop_world_S. reflexivity. }
  split; [now apply loop_text|].
  split; [apply split_lines_unlines, emitted_no_newline|].
  eapply Forall_impl; [apply emitted_level|].
  intros l Hl. simpl in Hl. rewrite Hl. discriminate.
Qed.

(** C2. Every turn of the loop appends exactly one line to the destination
    file: the text grows by one newline-terminated line, written by the one
    write of the turn; the line has level WARNING and holds the message of
    line 10. *)
Theorem one_warning_line_per_cycle (env : Env) (fs fs1 : FS) (n : nat) :
  open_append LOG_FILE fs = inr fs1 ->
  exists w w' line evs,
    after_cycles env n fs = Some (Running L9_debug w)
    /\ after_cycles env (S n) fs = Some (Running L9_debug w')
    /\ read_text LOG_FILE (w_fs w') = read_text LOG_FILE (w_fs w) +:+ line +:+ NL
    /\ split_lines (line +:+ NL) = [line]
    /\ w_trace w' = w_trace w ++ evs
    /\ List.filter is_write evs = [EvWrite LOG_FILE (line +:+ NL)]
    /\ line_level line = Some "WARNING"%string
    /\ line_message line = Some WARN_MSG
    /\ contains line WARN_MSG
    /\ WARN_MSG = "This is an warn log from app3"%string.
Proof.
  intros H.
  exists (loop_world env fs1 n), (loop_world env fs1 (S n)),
    (warning_line env n), (cycle_events env n).
  split; [now apply run_ok|]. split; [now apply run_ok|].
  split.
  { rewrite !(loop_text env fs fs1) by exact H.
    rewrite emitted_S, unlines_app.
    change (unlines [warning_line env n]) with (warning_line env n +:+ NL).
    now rewrite append_assoc. }
  split.
  { change (warning_line env n +:+ NL) with (unlines [warning_line env n]).
    apply split_lines_unlines. constructor; [apply warning_line_no_newline | constructor]. }
  split; [rewrite loop_world_S; reflexivity|].
  split; [reflexivity|].
  split; [apply warning_line_level|].
  split; [apply warning_line_message|].
  split; [apply contains_template_msg | reflexivity].
Qed.

(** C3. The formatter of line 6 renders a record as the template of the
    specification, and every line the program has appended to the
    destination file is that template with the level WARNING. *)
Theorem emitted_lines_match_template (env : Env) (fs fs1 : FS) (n : nat) :
  open_append LOG_FILE fs = inr fs1 ->
  (forall r, format env FORMAT r
             = Some (template (formatTime env (r_created r))
                              (getLevelName (r_levelno r)) (r_msg r)))
  /\ exists w lines,
       after_cycles env n fs = Some (Running L9_debug w)
       /\ read_text LOG_FILE (w_fs w) = read_text LOG_FILE fs +:+ unlines lines
       /\ split_lines (unlines lines) = lines
       /\ Forall (fun l => exists ts msg, l = template ts "WARNING" msg) lines
       /\ Forall (fun l => line_level l = Some "WARNING"%string) lines.
Proof.
  intros H. split; [apply format_template|].
  exists (loop_world env fs1 n), (emitted env n).
  split; [now apply run_ok|].
  split; [now apply loop_text|].
  split; [apply split_lines_unlines, emitted_no_newline|].
  split; [|apply emitted_level].
  unfold emitted. induction (seq 0 n) as [|k ks IH]; simpl; constructor.
  - eexists _, _. reflexivity.
  - exact IH.
Qed.

End Lines.

(** ** The file only grows *)

Section AppendOnly.

Lemma filter_all {A} (f : A -> bool) (l : list A) :
  Forall (fun x => f x = true) l -> List.filter f l = l.
Proof.
  induction 1 as [|x l Hx _ IH]; simpl; [reflexivity|]. now rewrite Hx, IH.
Qed.

Lemma emitted_lookup (env : Env) (n k : nat) :
  (k < n)%nat -> emitted env n !! k = Some (warning_line env k).
Proof.
  induction n as [|n IH]; intros Hk; [lia|].
  rewrite emitted_S. destruct (decide (k = n)) as [->|Hne].
  - rewrite lookup_app_r; rewrite emitted_length; [|lia].
    now rewrite Nat.sub_diag.
  - rewrite lookup_app_l; [apply IH; lia | rewrite emitted_length; lia].
Qed.

Lemma emitted_prefix (env : Env) (m n : nat) :
  (m <= n)%nat -> exists more, emitted env n = emitted env m ++ more.
Proof.
  induction 1 as [|n _ [more IH]].
  - exists []. now rewrite app_nil_r.
  - exists (more ++ [warning_line env n]). now rewrite emitted_S, IH, app_assoc.
Qed.

End AppendOnly.

(** ** Start-up failure *)

Section Startup.

(** When [open] refuses the destination. *)
Lemma open_append_refused (p : string) (fs : FS) :
  dirs fs !! dirname p = None
  \/ (dirs fs !! dirname p = Some false /\ files fs !! p = None)
  \/ (exists f, files fs !! p = Some f /\ f_writable f = false) ->
  exists e, open_append p fs = inl e.
Proof.
  unfold open_append. intros [Hd | [[Hd Hf] | (f & Hf & Hw)]].
  - rewrite Hd. eauto.
  - rewrite Hd, Hf. eauto.
  - destruct (dirs fs !! dirname p); [|eauto]. rewrite Hf, Hw. eauto.
Qed.

(** And when it does not. *)
Lemma open_append_granted (p : string) (fs : FS) :
  (exists dw, dirs fs !! dirname p = Some dw
     /\ ((exists f, files fs !! p = Some f /\ f_writable f = true)
         \/ (files fs !! p = None /\ dw = true))) ->
  exists fs1, open_append p fs = inr fs1.
Proof.
  unfold open_append. intros (dw & Hd & [(f & Hf & Hw) | [Hf ->]]); rewrite Hd, Hf.
  - rewrite Hw. eauto.
  - eauto.
Qed.

(** C5, as the code has it. When the directory of the destination does not
    exist, or the log file is absent and the directory may not be written,
    or the log file exists and may not be written, line 4 raises: the
    process is dead after its first statement with exit status 1 and takes
    no further step, so the loop never starts; it has asked once for the
    destination and for nothing else, it has logged nothing, and the file
    system is as it was. *)
Theorem unopenable_destination_is_fatal (env : Env) (fs : FS) :
  dirs fs !! dirname LOG_FILE = None
  \/ (dirs fs !! dirname LOG_FILE = Some false /\ files fs !! LOG_FILE = None)
  \/ (exists f, files fs !! LOG_FILE = Some f /\ f_writable f = false) ->
  exists e w,
    steps env 1 (start fs) = Some (Crashed e w)
    /\ step env (Crashed e w) = None
    /\ (forall k, steps env (S (S k)) (start fs) = None)
    /\ (forall n, (0 < n)%nat -> after_cycles env n fs = None)
    /\ exit_status (Crashed e w) = Some 1
    /\ w_fs w = fs
    /\ w_stderr w = EmptyString
    /\ w_trace w = [EvOpen LOG_FILE]
    /\ w_reads w = O.
Proof.
  intros Hbad. destruct (open_append_refused _ _ Hbad) as [e He].
  exists e, (crash_world fs).
  assert (H1 : steps env 1 (start fs) = Some (Crashed e (crash_world fs))).
  { apply (run_fails env fs e 0 He). }
  split; [exact H1|]. split; [reflexivity|].
  split.
  { intros k. change (S (S k)) with (1 + S k)%nat.
    rewrite steps_add, H1. reflexivity. }
  split.
  { intros [|n] Hn; [lia|]. apply (run_fails env fs e (S n) He). }
  repeat split.
Qed.

End Startup.

(** ** The loop *)

Section Loop.

Lemma emit_done (env : Env) (h : Handler) (r : LogRecord) (w : World) :
  exists w', emit env h r w = Done tt w' /\ w_root w' = w_root w.
Proof.
  unfold emit. destruct (format env (h_fmt h) r); [destruct (h_stream h)|];
    eexists; split; reflexivity.
Qed.

Lemma callHandlers_done (env : Env) (hs : list Handler) (r : LogRecord) (w : World) :
  exists w', callHandlers env hs r w = Done tt w' /\ w_root w' = w_root w.
Proof.
  revert w. induction hs as [|h hs IH]; intros w; simpl.
  - eexists; split; reflexivity.
  - unfold bind. destruct (r_levelno r >=? h_level h).
    + destruct (emit_done env h r w) as (w1 & -> & Hr1).
      destruct (IH w1) as (w2 & -> & Hr2). exists w2. split; congruence.
    + simpl. apply IH.
Qed.

Lemma Logger_log_done (env : Env) (level : Z) (msg : string) (w : World) :
  exists w', Logger_log env level msg w = Done tt w' /\ w_root w' = w_root w.
Proof.
  unfold Logger_log, bind, time_time, gets. simpl.
  match goal with
  | |- exists w', callHandlers env ?hs ?r ?w0 = _ /\ _ =>
      destruct (callHandlers_done env hs r w0) as (w' & -> & Hr)
  end.
  exists w'. split; [reflexivity | exact Hr].
Qed.

Lemma log_done (env : Env) (level : Z) (msg : string) (w : World) :
  exists w', log env level msg w = Done tt w'.
Proof.
  unfold log, bind, log_event, modify, gets. simpl.
  destruct (l_handlers (w_root w)) eqn:Hh.
  - unfold basicConfig, bind, gets. simpl. rewrite Hh. simpl.
    match goal with
    | |- context [if ?b then _ else _] => destruct b
    end.
    + match goal with
      | |- exists w', Logger_log env level msg ?w0 = _ =>
          destruct (Logger_log_done env level msg w0) as (w' & -> & _)
      end. eauto.
    + eauto.
  - simpl. destruct (isEnabledFor (w_root w) level).
    + match goal with
      | |- exists w', Logger_log env level msg ?w0 = _ =>
          destruct (Logger_log_done env level msg w0) as (w' & -> & _)
      end. eauto.
    + eauto.
Qed.

(** A statement of the loop raises nothing, whatever the world. *)
Lemma loop_statement_done (env : Env) (pc : PC) (w : World) :
  pc <> L4_basicConfig -> exists w', exec env pc w = Done tt w'.
Proof.
  destruct pc; intros Hpc; [congruence| | |].
  - apply log_done.
  - apply log_done.
  - eexists. reflexivity.
Qed.

Lemma next_in_loop (pc : PC) : next pc <> L4_basicConfig.
Proof. destruct pc; discriminate. Qed.

Lemma steps_S_r (env : Env) (n : nat) (p : Proc) :
  steps env (S n) p
  = match steps env n p with
    | Some q => step env q
    | None => None
    end.
Proof.
  replace (S n) with (n + 1)%nat by lia. rewrite steps_add.
  destruct (steps env n p) as [q|]; [|reflexivity].
  simpl. now destruct (step env q).
Qed.

(** C6. The loop has no way out. From the top of the loop, in any world at
    all, the process is still running a statement of the loop after any
    number of steps: it has no exit status, and it is back at line 9 after
    every third step, ready for one more turn. *)
Theorem loop_never_exits (env : Env) (w : World) :
  (forall k, exists pc w',
      steps env k (Running L9_debug w) = Some (Running pc w')
      /\ pc <> L4_basicConfig
      /\ exit_status (Running pc w') = None
      /\ exists p', step env (Running pc w') = Some p')
  /\ (forall n, exists w',
      steps env (3 * n) (Running L9_debug w) = Some (Running L9_debug w')
      /\ exists w'', steps env 3 (Running L9_debug w') = Some (Running L9_debug w'')).
Proof.
  assert (Hk : forall k, exists pc w',
             steps env k (Running L9_debug w) = Some (Running pc w')
             /\ pc <> L4_basicConfig
             /\ pc = match (k mod 3)%nat with
                     | O => L9_debug
                     | S O => L10_warning
                     | _ => L11_sleep
                     end).
  { induction k as [|k (pc & w' & Hs & Hpc & Hat)].
    - exists L9_debug, w. repeat split. discriminate.
    - destruct (loop_statement_done env pc w' Hpc) as [w2 Hw2].
      exists (next pc), w2. rewrite steps_S_r, Hs. unfold step. rewrite Hw2.
      split; [reflexivity|]. split; [apply next_in_loop|].
      rewrite Hat.
      assert (Hm : (k mod 3 < 3)%nat) by (apply Nat.mod_upper_bound; lia).
      assert (HS : (S k mod 3 = if decide (k mod 3 = 2) then 0 else S (k mod 3))%nat).
      { replace (S k) with (k + 1)%nat by lia.
        rewrite Nat.Div0.add_mod by lia.
        destruct (k mod 3)%nat as [|[|[|m]]]; try reflexivity; lia. }
      rewrite HS. destruct (k mod 3)%nat as [|[|[|m]]]; try reflexivity; lia. }
  split.
  - intros k. destruct (Hk k) as (pc & w' & Hs & Hpc & _).
    exists pc, w'. split; [exact Hs|]. split; [exact Hpc|]. split; [reflexivity|].
    simpl. eauto.
  - assert (Hturn : forall n, exists w',
               steps env (3 * n) (Running L9_debug w) = Some (Running L9_debug w')).
    { intros n. destruct (Hk (3 * n)%nat) as (pc & w' & Hs & _ & Hat).
      replace ((3 * n) mod 3)%nat with 0%nat in Hat
        by (symmetry; rewrite Nat.mul_comm; apply Nat.Div0.mod_mul).
      subst pc. eauto. }
    intros n. destruct (Hturn n) as [w' Hw']. exists w'. split; [exact Hw'|].
    destruct (Hturn (S n)) as [w'' Hw''].
    replace (3 * S n)%nat with (3 * n + 3)%nat in Hw'' by lia.
    rewrite steps_add, Hw' in Hw''. eauto.
Qed.

End Loop.

(** ** The configuration *)

Section Configuration.

Lemma filter_is_open_app (a b : list Event) :
  List.filter is_open (a ++ b) = List.filter is_open a ++ List.filter is_open b.
Proof. apply List.filter_app. Qed.

(** A statement of the loop leaves the configured root logger as it is and
    opens nothing. *)
Lemma loop_statement_keeps_config (env : Env) (pc : PC) (w : World) :
  pc <> L4_basicConfig ->
  w_root w = configured ->
  exists w', exec env pc w = Done tt w'
             /\ w_root w' = configured
             /\ List.filter is_open (w_trace w') = List.filter is_open (w_trace w).
Proof.
  destruct w as [fs err root reads tr]. simpl.
  destruct pc; intros Hpc ->; [congruence| | |];
    eexists; (split; [reflexivity|]); (split; [reflexivity|]);
    cbn [w_trace]; rewrite ?filter_is_open_app; simpl; now rewrite ?app_nil_r.
Qed.

(** C8. Line 4 sets the configuration: before it, the root logger has no
    handler; after it, and after any number of further steps (so at every
    statement of every turn), the root logger is the configured one, with
    the destination, the threshold INFO and the template of the source;
    line 4 is never reached again and the destination has been opened
    exactly once. *)
Theorem configuration_set_once_never_changed (env : Env) (fs fs1 : FS) (k : nat) :
  open_append LOG_FILE fs = inr fs1 ->
  l_handlers (w_root (boot fs)) = []
  /\ exists pc w,
       steps env (S k) (start fs) = Some (Running pc w)
       /\ pc <> L4_basicConfig
       /\ w_root w = configured
       /\ l_level (w_root w) = INFO
       /\ l_handlers (w_root w)
          = [ {| h_level := NOTSET;
                 h_stream := FileStream "/tmp/app-logs/app3.log";
                 h_fmt := FORMAT |} ]
       /\ List.filter is_open (w_trace w) = [EvOpen LOG_FILE].
Proof.
  intros H. split; [reflexivity|].
  assert (Hk : exists pc w,
             steps env (S k) (start fs) = Some (Running pc w)
             /\ pc <> L4_basicConfig
             /\ w_root w = configured
             /\ List.filter is_open (w_trace w) = [EvOpen LOG_FILE]).
  { induction k as [|k (pc & w & Hs & Hpc & Hroot & Hopen)].
    - exists L9_debug, (loop_world env fs1 0).
      split; [apply (run_ok env fs fs1 0 H)|]. repeat split. discriminate.
    - destruct (loop_statement_keeps_config env pc w Hpc Hroot) as (w' & Hw' & Hr' & Ho').
      exists (next pc), w'. rewrite steps_S_r, Hs. unfold step. rewrite Hw'.
      split; [reflexivity|]. split; [apply next_in_loop|].
      split; [exact Hr' | congruence]. }
  destruct Hk as (pc & w & Hs & Hpc & Hroot & Hopen).
  exists pc, w. rewrite Hroot. repeat split; assumption.
Qed.

End Configuration.

(** ** Strict JSON *)

Section StrictJson.

(** C9. Every line the program has appended to the destination file is
    read by a strict JSON reader as an object of three string members;
    that is owed to the texts put into the template, no character of which
    needs an escape (no double quote, no backslash, nothing below a space,
    so no newline), and not to the formatter: it inserts the message as it
    is, and a message that holds a double quote gives a line no JSON
    reader accepts, whatever its fuel. *)
Theorem emitted_lines_are_strict_json (env : Env) (fs fs1 : FS) (n : nat) :
  open_append LOG_FILE fs = inr fs1 ->
  (exists w lines,
     after_cycles env n fs = Some (Running L9_debug w)
     /\ read_text LOG_FILE (w_fs w) = read_text LOG_FILE fs +:+ unlines lines
     /\ split_lines (unlines lines) = lines
     /\ Forall (fun l => exists ts,
                  Json.loads l
                  = Some (Json.JObject
                            [ ("timestamp"%string, Json.JString ts);
                              ("level"%string, Json.JString "WARNING");
                              ("message"%string, Json.JString WARN_MSG) ])) lines)
  /\ all_chars Json.plain_char WARN_MSG = true
  /\ all_chars Json.plain_char (getLevelName WARNING) = true
  /\ (forall ct, all_chars Json.plain_char (formatTime env ct) = true)
  /\ all_chars no_newline WARN_MSG = true
  /\ (exists l, format env FORMAT quoting_record = Some l
                /\ Json.loads l = None
                /\ forall fuel, Json.parse_value fuel l = None).
Proof.
  intros H. split.
  { exists (loop_world env fs1 n), (emitted env n).
    split; [now apply run_ok|].
    split; [now apply loop_text|].
    split; [apply split_lines_unlines, emitted_no_newline|].
    unfold emitted. induction (seq 0 n) as [|k ks IH]; simpl; constructor.
    - eexists. apply warning_line_loads.
    - exact IH. }
  split; [reflexivity|]. split; [reflexivity|].
  split; [intros ct; apply stamp_plain, formatTime_stamp|].
  split; [reflexivity|].
  eexists. split; [apply format_template|].
  assert (Hfuel : forall fuel,
             Json.parse_value fuel
               (template (formatTime env (r_created quoting_record))
                  (getLevelName (r_levelno quoting_record)) (r_msg quoting_record))
             = None).
  { intros fuel.
    destruct fuel as [|[|[|[|[|fuel]]]]]; try reflexivity;
      change (template ?ts ?lvl ?msg) with
        (String "{" (String dquote ("timestamp" +:+ String dquote (String ":" (String " "
           (String dquote (ts +:+ String dquote (String "," (String " " (String dquote
           ("level" +:+ String dquote (String ":" (String " "
           (String dquote (lvl +:+ String dquote (String "," (String " "
           (String dquote ("message" +:+ String dquote (String ":" (String " "
           (String dquote (msg +:+ String dquote (String "}" EmptyString))))))))))))))))))))))));
      change (Json.parse_value (S ?f) (String "{" (String dquote ?x))) with
        (match Json.parse_members f (String dquote x) with
         | Some (ms, r3) => Some (Json.JObject ms, r3)
         | None => None
         end);
      try reflexivity;
      rewrite (member_more _ "timestamp") by
        (reflexivity || apply stamp_plain, formatTime_stamp);
      try reflexivity;
      try (rewrite (member_more _ "level") by reflexivity; reflexivity). }
  split; [|exact Hfuel].
  unfold Json.loads. now rewrite Hfuel.
Qed.

End StrictJson.

(** ** Two runs *)

Section Determinism.

Lemma emitted_ext (env1 env2 : Env) (n : nat) :
  (forall k, (k < n)%nat ->
     formatTime env1 (clock env1 k) = formatTime env2 (clock env2 k)) ->
  emitted env1 n = emitted env2 n.
Proof.
  induction n as [|n IH]; intros Heq; [reflexivity|].
  rewrite !emitted_S, IH by (intros k Hk; apply Heq; lia).
  unfold warning_line. rewrite (Heq n) by lia. reflexivity.
Qed.

Lemma loop_trace_ext (env1 env2 : Env) (fs1 fs2 : FS) (n : nat) :
  (forall k, (k < n)%nat ->
     formatTime env1 (clock env1 k) = formatTime env2 (clock env2 k)) ->
  w_trace (loop_world env1 fs1 n) = w_trace (loop_world env2 fs2 n).
Proof.
  induction n as [|n IH]; intros Heq; [reflexivity|].
  rewrite !loop_world_S. cbn [w_trace].
  rewrite IH by (intros k Hk; apply Heq; lia).
  unfold cycle_events, warning_line. rewrite (Heq n) by lia. reflexivity.
Qed.

Lemma emitted_In (env : Env) (n : nat) (l : string) :
  In l (emitted env n) -> exists k, l = warning_line env k.
Proof.
  unfold emitted. intros Hl. apply in_map_iff in Hl as (k & <- & _). eauto.
Qed.

(** C10. Two runs of the program in which the same time stamps are
    captured at the emissions (the same readings of the clock on hosts of
    the same time zone, for one) append the same lines and do the same
    things in the same order, whatever their file systems held; and the
    lines of a run are the one template with the level WARNING and the
    message of line 10: two of them have the same level and the same
    message, and are the same line when their time stamps are the same. *)
Theorem output_determined_by_time_stamps
    (env1 env2 : Env) (fsa fsa1 fsb fsb1 : FS) (n : nat) :
  open_append LOG_FILE fsa = inr fsa1 ->
  open_append LOG_FILE fsb = inr fsb1 ->
  (forall k, (k < n)%nat ->
     formatTime env1 (clock env1 k) = formatTime env2 (clock env2 k)) ->
  exists w1 w2 lines,
    after_cycles env1 n fsa = Some (Running L9_debug w1)
    /\ after_cycles env2 n fsb = Some (Running L9_debug w2)
    /\ read_text LOG_FILE (w_fs w1) = read_text LOG_FILE fsa +:+ unlines lines
    /\ read_text LOG_FILE (w_fs w2) = read_text LOG_FILE fsb +:+ unlines lines
    /\ split_lines (unlines lines) = lines
    /\ w_trace w1 = w_trace w2
    /\ Forall (fun l => exists ts, l = template ts "WARNING" WARN_MSG) lines
    /\ forall l l', In l lines -> In l' lines ->
         line_level l = line_level l'
         /\ line_message l = line_message l'
         /\ (line_timestamp l = line_timestamp l' -> l = l').
Proof.
  intros Ha Hb Heq.
  exists (loop_world env1 fsa1 n), (loop_world env2 fsb1 n), (emitted env1 n).
  split; [now apply run_ok|]. split; [now apply run_ok|].
  split; [now apply loop_text|].
  split; [rewrite (emitted_ext env1 env2 n Heq); now apply loop_text|].
  split; [apply split_lines_unlines, emitted_no_newline|].
  split; [now apply loop_trace_ext|].
  split.
  { unfold emitted. induction (seq 0 n) as [|k ks IH]; simpl; constructor.
    - eexists. reflexivity.
    - exact IH. }
  intros l l' Hl Hl'.
  apply emitted_In in Hl as [k ->]. apply emitted_In in Hl' as [k' ->].
  rewrite !warning_line_level, !warning_line_message, !warning_line_timestamp.
  split; [reflexivity|]. split; [reflexivity|].
  intros Hts. injection Hts as Hts. unfold warning_line. now rewrite Hts.
Qed.

End Determinism.

(** ** On concrete hosts *)

Section Hosts.

Example strftime_gmtime :
  strftime (gmtime 1700000000) = "2023-11-14 22:13:20"%string.
Proof. vm_compute. reflexivity. Qed.

Example pad0_examples :
  pad0 3 7 = "007"%string /\ pad0 3 123 = "123"%string
  /\ pad0 2 0 = "00"%string /\ pad0 3 (-5) = "-05"%string.
Proof. vm_compute. repeat split. Qed.

Example dirname_examples :
  dirname LOG_FILE = LOG_DIR /\ dirname "/x" = "/"%string
  /\ dirname "x" = EmptyString /\ dirname "a/b" = "a"%string.
Proof. vm_compute. repeat split. Qed.

Example two_turns_on_a_fresh_host :
  exists w,
    after_cycles steady_env 2 fresh_fs = Some (Running L9_debug w)
    /\ read_text LOG_FILE (w_fs w)
       = template "2023-11-14 22:13:20,123" "WARNING" WARN_MSG +:+ NL
         +:+ template "2023-11-14 22:13:23,123" "WARNING" WARN_MSG +:+ NL.
Proof. eexists. split; vm_compute; reflexivity. Qed.

Lemma fresh_fs_opens : open_append LOG_FILE fresh_fs = inr fresh_fs_opened.
Proof. vm_compute. reflexivity. Defined.

Lemma used_fs_opens : open_append LOG_FILE used_fs = inr used_fs.
Proof. vm_compute. reflexivity. Defined.

(** On a fresh host the second turn attempts its DEBUG record and the
    three lines then in the file have a level other than DEBUG. *)
Lemma debug_attempted_once_never_written_witness :
  open_append LOG_FILE fresh_fs = inr fresh_fs_opened
  /\ exists w' lines,
       after_cycles steady_env 3 fresh_fs = Some (Running L9_debug w')
       /\ read_text LOG_FILE (w_fs w') = read_text LOG_FILE fresh_fs +:+ unlines lines
       /\ Forall (fun l => line_level l <> Some "DEBUG"%string) lines.
Proof.
  split; [exact fresh_fs_opens|].
  destruct (debug_attempted_once_never_written steady_env fresh_fs fresh_fs_opened 2
              fresh_fs_opens)
    as (w & w' & lines & _ & H2 & _ & _ & _ & _ & _ & Ht & _ & Hl).
  exists w', lines. split; [exact H2|]. split; [exact Ht | exact Hl].
Defined.

(** On a fresh host the first turn appends one WARNING line. *)
Lemma one_warning_line_per_cycle_witness :
  open_append LOG_FILE fresh_fs = inr fresh_fs_opened
  /\ exists w w' line,
       after_cycles steady_env 0 fresh_fs = Some (Running L9_debug w)
       /\ after_cycles steady_env 1 fresh_fs = Some (Running L9_debug w')
       /\ read_text LOG_FILE (w_fs w') = read_text LOG_FILE (w_fs w) +:+ line +:+ NL
       /\ line_level line = Some "WARNING"%string
       /\ contains line WARN_MSG.
Proof.
  split; [exact fresh_fs_opens|].
  destruct (one_warning_line_per_cycle steady_env fresh_fs fresh_fs_opened 0 fresh_fs_opens)
    as (w & w' & line & evs & H1 & H2 & Ht & _ & _ & _ & Hl & _ & Hc & _).
  exists w, w', line. repeat split; assumption.
Defined.

(** On a host that has run the program before, the lines of this run match
    the template. *)
Lemma emitted_lines_match_template_witness :
  open_append LOG_FILE used_fs = inr used_fs
  /\ exists w lines,
       after_cycles steady_env 2 used_fs = Some (Running L9_debug w)
       /\ read_text LOG_FILE (w_fs w) = read_text LOG_FILE used_fs +:+ unlines lines
       /\ Forall (fun l => exists ts msg, l = template ts "WARNING" msg) lines.
Proof.
  split; [exact used_fs_opens|].
  destruct (emitted_lines_match_template steady_env used_fs used_fs 2 used_fs_opens)
    as (_ & w & lines & H1 & Ht & _ & Hl & _).
  exists w, lines. repeat split; assumption.
Defined.

(** C5 as the specification has it fails: in a directory the process may
    not write, a log file that exists and is writable is opened, and the
    program runs and writes. *)
Lemma unwritable_directory_not_fatal :
  dirs locked_dir_own_file_fs !! dirname LOG_FILE = Some false
  /\ exists w,
       after_cycles steady_env 1 locked_dir_own_file_fs = Some (Running L9_debug w)
       /\ exit_status (Running L9_debug w) = None
       /\ read_text LOG_FILE (w_fs w)
          = template "2023-11-14 22:13:20,123" "WARNING" WARN_MSG +:+ NL.
Proof.
  split; [vm_compute; reflexivity|].
  eexists. split; [vm_compute; reflexivity|].
  split; vm_compute; reflexivity.
Qed.

(** No directory; a directory that may not be written and no file yet. *)
Lemma unopenable_destination_is_fatal_witness :
  (dirs no_dir_fs !! dirname LOG_FILE = None
   /\ exists e w,
        steps steady_env 1 (start no_dir_fs) = Some (Crashed e w)
        /\ exit_status (Crashed e w) = Some 1
        /\ w_fs w = no_dir_fs)
  /\ (dirs locked_dir_fs !! dirname LOG_FILE = Some false
      /\ files locked_dir_fs !! LOG_FILE = None
      /\ exists e w,
           steps steady_env 1 (start locked_dir_fs) = Some (Crashed e w)
           /\ exit_status (Crashed e w) = Some 1
           /\ w_fs w = locked_dir_fs
           /\ w_trace w = [EvOpen LOG_FILE]).
Proof.
  assert (Hd : dirs no_dir_fs !! dirname LOG_FILE = None) by (vm_compute; reflexivity).
  assert (Hl : dirs locked_dir_fs !! dirname LOG_FILE = Some false
               /\ files locked_dir_fs !! LOG_FILE = None)
    by (split; vm_compute; reflexivity).
  split.
  - split; [exact Hd|].
    destruct (unopenable_destination_is_fatal steady_env no_dir_fs (or_introl Hd))
      as (e & w & H1 & _ & _ & _ & Hx & Hfs & _).
    exists e, w. split; [exact H1|]. split; [exact Hx | exact Hfs].
  - destruct Hl as [Hl1 Hl2]. split; [exact Hl1|]. split; [exact Hl2|].
    destruct (unopenable_destination_is_fatal steady_env locked_dir_fs
                (or_intror (or_introl (conj Hl1 Hl2))))
      as (e & w & H1 & _ & _ & _ & Hx & Hfs & _ & Htr & _).
    exists e, w. split; [exact H1|]. split; [exact Hx|]. split; [exact Hfs | exact Htr].
Defined.

(** On a fresh host, five steps after the start. *)
Lemma configuration_set_once_never_changed_witness :
  open_append LOG_FILE fresh_fs = inr fresh_fs_opened
  /\ exists pc w,
       steps steady_env 6 (start fresh_fs) = Some (Running pc w)
       /\ w_root w = configured
       /\ List.filter is_open (w_trace w) = [EvOpen LOG_FILE].
Proof.
  split; [exact fresh_fs_opens|].
  destruct (configuration_set_once_never_changed steady_env fresh_fs fresh_fs_opened 5
              fresh_fs_opens)
    as (_ & pc & w & H1 & _ & Hr & _ & _ & Ho).
  exists pc, w. repeat split; assumption.
Defined.

(** On a fresh host, two lines a strict reader accepts. *)
Lemma emitted_lines_are_strict_json_witness :
  open_append LOG_FILE fresh_fs = inr fresh_fs_opened
  /\ exists w lines,
       after_cycles steady_env 2 fresh_fs = Some (Running L9_debug w)
       /\ read_text LOG_FILE (w_fs w) = read_text LOG_FILE fresh_fs +:+ unlines lines
       /\ Forall (fun l => exists v, Json.loads l = Some v) lines.
Proof.
  split; [exact fresh_fs_opens|].
  destruct (emitted_lines_are_strict_json steady_env fresh_fs fresh_fs_opened 2
              fresh_fs_opens)
    as ((w & lines & H1 & Ht & _ & Hl) & _).
  exists w, lines. split; [exact H1|]. split; [exact Ht|].
  eapply Forall_impl; [exact Hl|]. intros l [ts Hts]. eauto.
Defined.

(** The same clock on a fresh host and on one that has run the program
    before: the same lines are appended. *)
Lemma output_determined_by_time_stamps_witness :
  open_append LOG_FILE fresh_fs = inr fresh_fs_opened
  /\ open_append LOG_FILE used_fs = inr used_fs
  /\ exists w1 w2 lines,
       after_cycles steady_env 2 fresh_fs = Some (Running L9_debug w1)
       /\ after_cycles steady_env 2 used_fs = Some (Running L9_debug w2)
       /\ read_text LOG_FILE (w_fs w1) = read_text LOG_FILE fresh_fs +:+ unlines lines
       /\ read_text LOG_FILE (w_fs w2) = read_text LOG_FILE used_fs +:+ unlines lines
       /\ w_trace w1 = w_trace w2.
Proof.
  split; [exact fresh_fs_opens|]. split; [exact used_fs_opens|].
  destruct (output_determined_by_time_stamps steady_env steady_env
              fresh_fs fresh_fs_opened used_fs used_fs 2
              fresh_fs_opens used_fs_opens (fun k _ => eq_refl))
    as (w1 & w2 & lines & H1 & H2 & Ha & Hb & _ & Htr & _).
  exists w1, w2, lines. repeat split; assumption.
Defined.

End Hosts.

(** * Further properties of the program *)

(** ** The configured logger and any call *)

Section AnyCall.

(** X1. With the configuration of lines 4 to 6, a module-level logging call
    of any level and any message is decided by the threshold alone: at
    INFO or above it reads the clock once and appends the template filled
    with that reading, the name of the level and the message as it is,
    with a newline; below INFO it reads no clock and writes nothing, and
    only the attempt is there to see. *)
Theorem configured_logger_filters_by_level
    (env : Env) (w : World) (level : Z) (msg : string) :
  w_root w = configured ->
  log env level msg w
  = Done tt
      (if level >=? INFO
       then {| w_fs := append_data LOG_FILE
                         (template (formatTime env (clock env (w_reads w)))
                                   (getLevelName level) msg +:+ NL) (w_fs w);
               w_stderr := w_stderr w;
               w_root := configured;
               w_reads := S (w_reads w);
               w_trace := w_trace w
                          ++ [ EvLog level msg;
                               EvWrite LOG_FILE
                                 (template (formatTime env (clock env (w_reads w)))
                                           (getLevelName level) msg +:+ NL) ] |}
       else {| w_fs := w_fs w;
               w_stderr := w_stderr w;
               w_root := configured;
               w_reads := w_reads w;
               w_trace := w_trace w ++ [EvLog level msg] |}).
Proof.
  destruct w as [fs err root reads tr]. simpl. intros ->.
  unfold log, bind, log_event, modify, gets, isEnabledFor. simpl.
  change (l_level configured) with INFO.
  destruct (level >=? INFO) eqn:Hlv; [|reflexivity].
  unfold Logger_log, bind, time_time, gets. simpl.
  assert (Hge : (level >=? NOTSET) = true).
  { unfold INFO, NOTSET in *. apply Z.geb_le. apply Z.geb_le in Hlv. lia. }
  rewrite Hge. unfold emit. rewrite format_template. simpl.
  unfold bind, gets, set_fs, log_event, modify, ret. simpl.
  rewrite <- app_assoc. reflexivity.
Qed.

End AnyCall.

(** ** What a run does, in order *)

Section RunShape.

Lemma total_sleep_app (a b : list Event) :
  total_sleep (a ++ b) = total_sleep a + total_sleep b.
Proof.
  induction a as [|e a IH]; simpl; [reflexivity|].
  destruct e; rewrite IH; lia.
Qed.

Lemma filter_app_bool {A} (f : A -> bool) (a b : list A) :
  List.filter f (a ++ b) = List.filter f a ++ List.filter f b.
Proof. apply List.filter_app. Qed.

(** X3. The events of a run, in order: the destination is opened, and then
    each turn does the same four things, the DEBUG attempt, the WARNING
    attempt, the write of that turn's line and a sleep of three seconds.
    So the clock has been read once per turn; a sleep follows every write,
    writes and sleeps alternate, and [3 n] seconds of sleep have been asked
    for after [n] turns. *)
Theorem run_is_open_then_turns (env : Env) (fs fs1 : FS) (n : nat) :
  open_append LOG_FILE fs = inr fs1 ->
  exists w,
    after_cycles env n fs = Some (Running L9_debug w)
    /\ w_trace w
       = EvOpen LOG_FILE
         :: flat_map
              (fun k =>
                 [ EvLog DEBUG DEBUG_MSG;
                   EvLog WARNING WARN_MSG;
                   EvWrite LOG_FILE
                     (template (formatTime env (clock env k)) "WARNING" WARN_MSG +:+ NL);
                   EvSleep 3 ])
              (seq 0 n)
    /\ w_reads w = n
    /\ List.filter (fun e => is_write e || is_sleep e) (w_trace w)
       = flat_map
           (fun k =>
              [ EvWrite LOG_FILE
                  (template (formatTime env (clock env k)) "WARNING" WARN_MSG +:+ NL);
                EvSleep 3 ])
           (seq 0 n)
    /\ total_sleep (w_trace w) = 3 * Z.of_nat n.
Proof.
  intros H. exists (loop_world env fs1 n).
  split; [now apply run_ok|].
  split; [reflexivity|]. split; [reflexivity|].
  cbn [w_trace loop_world].
  change (EvOpen LOG_FILE :: ?l) with ([EvOpen LOG_FILE] ++ l).
  rewrite filter_app_bool, total_sleep_app.
  change (List.filter (fun e => is_write e || is_sleep e) [EvOpen LOG_FILE]) with (@nil Event).
  change (total_sleep [EvOpen LOG_FILE]) with 0.
  split.
  - change ([] ++ ?l) with l.
    induction (seq 0 n) as [|k ks IH]; [reflexivity|].
    change (flat_map ?f (k :: ks)) with (f k ++ flat_map f ks).
    rewrite filter_app_bool, IH. reflexivity.
  - rewrite Z.add_0_l. induction n as [|n IH]; [reflexivity|].
    rewrite seq_S, flat_map_app, total_sleep_app, IH.
    change (total_sleep (flat_map (cycle_events env) [(0 + n)%nat])) with 3.
    lia.
Qed.

End RunShape.

(** ** A formatted record, read back *)

Section ReadBack.

Lemma getLevelName_plain (level : Z) :
  all_chars Json.plain_char (getLevelName level) = true.
Proof.
  unfold getLevelName.
  repeat match goal with
         | |- context [if ?b then _ else _] => destruct b; [reflexivity|]
         end.
  rewrite all_chars_append, (stamp_plain _ (pad0_stamp _ _)). reflexivity.
Qed.

Lemma field_of_template (ts lvl msg : string) :
  all_chars Json.plain_char ts = true ->
  all_chars Json.plain_char lvl = true ->
  all_chars Json.plain_char msg = true ->
  line_timestamp (template ts lvl msg) = Some ts
  /\ line_level (template ts lvl msg) = Some lvl
  /\ line_message (template ts lvl msg) = Some msg.
Proof.
  intros Hts Hlvl Hmsg.
  unfold line_timestamp, line_level, line_message, Json.field.
  rewrite (loads_template ts lvl msg Hts Hlvl Hmsg). repeat split.
Qed.

(** X4. What line 6 formats, a reader takes apart again, provided the
    message needs no escape: for any record whose message holds no double
    quote, no backslash and no control character, the formatted line is a
    JSON object whose three members are the rendered time, the name of the
    level and the message itself; so two such records that format to the
    same line have the same message, level name and time stamp. *)
Theorem formatted_record_reads_back (env : Env) (r : LogRecord) :
  all_chars Json.plain_char (r_msg r) = true ->
  exists line,
    format env FORMAT r = Some line
    /\ Json.loads line
       = Some (Json.JObject
                 [ ("timestamp"%string, Json.JString (formatTime env (r_created r)));
                   ("level"%string, Json.JString (getLevelName (r_levelno r)));
                   ("message"%string, Json.JString (r_msg r)) ])
    /\ line_timestamp line = Some (formatTime env (r_created r))
    /\ line_level line = Some (getLevelName (r_levelno r))
    /\ line_message line = Some (r_msg r)
    /\ forall r',
         all_chars Json.plain_char (r_msg r') = true ->
         format env FORMAT r' = Some line ->
         r_msg r' = r_msg r
         /\ getLevelName (r_levelno r') = getLevelName (r_levelno r)
         /\ formatTime env (r_created r') = formatTime env (r_created r).
Proof.
  intros Hmsg. eexists. split; [apply format_template|].
  assert (Hts : forall ct, all_chars Json.plain_char (formatTime env ct) = true)
    by (intros ct; apply stamp_plain, formatTime_stamp).
  destruct (field_of_template _ _ _ (Hts (r_created r))
              (getLevelName_plain (r_levelno r)) Hmsg) as (Ft & Fl & Fm).
  split; [apply loads_template; auto using getLevelName_plain|].
  split; [exact Ft|]. split; [exact Fl|]. split; [exact Fm|].
  intros r' Hmsg' Hfmt. rewrite format_template in Hfmt.
  assert (Hline : template (formatTime env (r_created r'))
                    (getLevelName (r_levelno r')) (r_msg r')
                  = template (formatTime env (r_created r))
                      (getLevelName (r_levelno r)) (r_msg r))
    by exact (f_equal (fun o => match o with Some l => l | None => EmptyString end) Hfmt).
  destruct (field_of_template _ _ _ (Hts (r_created r'))
              (getLevelName_plain (r_levelno r')) Hmsg') as (Ft' & Fl' & Fm').
  rewrite Hline in Ft', Fl', Fm'.
  rewrite Ft in Ft'. rewrite Fl in Fl'. rewrite Fm in Fm'.
  injection Ft' as ->. injection Fl' as ->. injection Fm' as ->.
  repeat split.
Qed.

End ReadBack.

(** ** The width of a line *)

Section Width.

Lemma length_append (a b : string) :
  String.length (a +:+ b) = (String.length a + String.length b)%nat.
Proof. induction a as [|c a IH]; simpl; [reflexivity | now rewrite IH]. Qed.

Lemma below_by_cases (P : Z -> bool) (bound : nat) :
  forallb (fun i => P (Z.of_nat i)) (seq 0 bound) = true ->
  forall z, 0 <= z < Z.of_nat bound -> P z = true.
Proof.
  intros Hall z Hz. rewrite forallb_forall in Hall.
  specialize (Hall (Z.to_nat z)). rewrite Z2Nat.id in Hall by lia.
  apply Hall, in_seq. lia.
Qed.

Lemma pad0_width (w : nat) (bound : nat) :
  forallb (fun i => (String.length (pad0 w (Z.of_nat i)) =? w)%nat) (seq 0 bound) = true ->
  forall z, 0 <= z < Z.of_nat bound -> String.length (pad0 w z) = w.
Proof.
  intros Hall z Hz.
  apply Nat.eqb_eq.
  exact (below_by_cases (fun z => (String.length (pad0 w z) =? w)%nat) bound Hall z Hz).
Qed.

Lemma pad0_2_width (z : Z) : 0 <= z < 100 -> String.length (pad0 2 z) = 2%nat.
Proof. apply (pad0_width 2 100). vm_compute. reflexivity. Qed.

Lemma pad0_3_width (z : Z) : 0 <= z < 1000 -> String.length (pad0 3 z) = 3%nat.
Proof. apply (pad0_width 3 1000). vm_compute. reflexivity. Qed.

Lemma pad0_4_width (z : Z) : 0 <= z < 10000 -> String.length (pad0 4 z) = 4%nat.
Proof.
  intros Hz. apply (pad0_width 4 (Z.to_nat 10000)); [vm_compute; reflexivity|].
  rewrite Z2Nat.id by lia. exact Hz.
Qed.

Lemma civil_time_bounds (t : struct_time) :
  civil_time t = true ->
  1000 <= tm_year t <= 9999 /\ 1 <= tm_mon t <= 12 /\ 1 <= tm_mday t <= 31
  /\ 0 <= tm_hour t <= 23 /\ 0 <= tm_min t <= 59 /\ 0 <= tm_sec t <= 61.
Proof.
  unfold civil_time. rewrite !andb_true_iff, !Z.leb_le. tauto.
Qed.

Lemma formatTime_width (env : Env) (ct : Z) :
  0 <= ct ->
  civil_time (localtime env (Z.quot ct 1000)) = true ->
  String.length (formatTime env ct) = 23%nat.
Proof.
  intros Hct Hciv. apply civil_time_bounds in Hciv.
  assert (Hms : 0 <= Z.rem ct 1000 < 1000) by (apply Z.rem_bound_pos; lia).
  unfold formatTime, strftime. rewrite !length_append.
  rewrite pad0_4_width, !pad0_2_width, pad0_3_width by lia.
  reflexivity.
Qed.

Lemma template_width (ts lvl msg : string) :
  String.length (template ts lvl msg)
  = (45 + String.length ts + String.length lvl + String.length msg)%nat.
Proof.
  unfold template. rewrite !length_append. simpl. lia.
Qed.

Lemma unlines_width (ls : list string) (width : nat) :
  Forall (fun l => String.length l = width) ls ->
  String.length (unlines ls) = (S width * length ls)%nat.
Proof.
  induction 1 as [|l ls Hl _ IH]; [simpl; lia|].
  rewrite unlines_cons, length_append. simpl String.length.
  rewrite IH, Hl. simpl length. lia.
Qed.

(** X6. On a host whose clock is past the epoch and whose local time has a
    year of four digits, the time stamp of a line is 23 characters wide
    (year, month, day, hour, minute, second and milliseconds, each padded
    with zeros to its width), a line of the program is 104 characters
    wide, and the destination file grows by 105 characters a turn. *)
Theorem lines_have_fixed_width (env : Env) (fs fs1 : FS) (n : nat) :
  open_append LOG_FILE fs = inr fs1 ->
  (forall k, (k < n)%nat ->
     0 <= clock env k
     /\ civil_time (localtime env (Z.quot (clock env k) 1000)) = true) ->
  exists w,
    after_cycles env n fs = Some (Running L9_debug w)
    /\ (forall k, (k < n)%nat ->
          String.length (formatTime env (clock env k)) = 23%nat
          /\ String.length
               (template (formatTime env (clock env k)) "WARNING" WARN_MSG) = 104%nat)
    /\ String.length (read_text LOG_FILE (w_fs w))
       = (String.length (read_text LOG_FILE fs) + 105 * n)%nat.
Proof.
  intros H Hciv. exists (loop_world env fs1 n).
  split; [now apply run_ok|].
  assert (Hw : forall k, (k < n)%nat ->
             String.length (formatTime env (clock env k)) = 23%nat
             /\ String.length (warning_line env k) = 104%nat).
  { intros k Hk. destruct (Hciv k Hk) as [Hct Hc].
    pose proof (formatTime_width env (clock env k) Hct Hc) as Hts.
    split; [exact Hts|].
    unfold warning_line. rewrite template_width, Hts. reflexivity. }
  split; [exact Hw|].
  rewrite (loop_text env fs fs1 n H), length_append.
  rewrite (unlines_width (emitted env n) 104), emitted_length; [lia|].
  clear - Hw. unfold emitted.
  assert (Hseq : forall k, In k (seq 0 n) -> (k < n)%nat) by (intros k Hk; apply in_seq in Hk; lia).
  induction (seq 0 n) as [|k ks IH]; simpl; constructor.
  - apply Hw, Hseq. now left.
  - apply IH. intros j Hj. apply Hseq. now right.
Qed.

End Width.

(** ** Lines before, lines after *)

Section LinesKept.

Lemma split_lines_acc_after_newline (cur : string -> string) (a b : string) :
  split_lines_acc cur ((a +:+ NL) +:+ b)
  = split_lines_acc cur (a +:+ NL) ++ split_lines_acc (fun t => t) b.
Proof.
  revert cur. induction a as [|c a IH]; intros cur.
  - reflexivity.
  - change ((String c a +:+ NL) +:+ b) with (String c ((a +:+ NL) +:+ b)).
    change (String c a +:+ NL) with (String c (a +:+ NL)).
    cbn [split_lines_acc]. destruct (Ascii.eqb c newline).
    + rewrite IH. reflexivity.
    + apply IH.
Qed.

Lemma split_lines_append (a b : string) :
  newline_terminated a ->
  split_lines (a +:+ b) = split_lines a ++ split_lines b.
Proof.
  unfold split_lines. intros [-> | [a' ->]].
  - reflexivity.
  - apply split_lines_acc_after_newline.
Qed.

(** X7. Line by line, the file only grows: when the text the destination
    held at the start was empty or ended with a newline, the lines of the
    file after [n] turns are the lines it held, unchanged and in their
    order, followed by the [n] lines of the run in the order of the turns. *)
Theorem earlier_lines_are_kept (env : Env) (fs fs1 : FS) (n : nat) :
  open_append LOG_FILE fs = inr fs1 ->
  newline_terminated (read_text LOG_FILE fs) ->
  exists w,
    after_cycles env n fs = Some (Running L9_debug w)
    /\ split_lines (read_text LOG_FILE (w_fs w))
       = split_lines (read_text LOG_FILE fs)
         ++ map (fun k => template (formatTime env (clock env k)) "WARNING" WARN_MSG)
                (seq 0 n).
Proof.
  intros H Hnl. exists (loop_world env fs1 n).
  split; [now apply run_ok|].
  rewrite (loop_text env fs fs1 n H), split_lines_append by exact Hnl.
  rewrite split_lines_unlines by apply emitted_no_newline.
  reflexivity.
Qed.

End LinesKept.

(** ** Stopping the program and starting it again *)

Section Restart.

(** The file system an opened destination lives in: the directory is known
    and the file is there and writable. *)
Lemma open_append_ready (p : string) (fs fs1 : FS) :
  open_append p fs = inr fs1 ->
  is_Some (dirs fs1 !! dirname p)
  /\ exists f, files fs1 !! p = Some f /\ f_writable f = true.
Proof.
  unfold open_append.
  destruct (dirs fs !! dirname p) as [dw|] eqn:Hd; [|discriminate].
  destruct (files fs !! p) as [f|] eqn:Hf.
  - destruct (f_writable f) eqn:Hw; [|discriminate].
    intros [= <-]. rewrite Hd, Hf. eauto.
  - destruct dw; [|discriminate]. intros [= <-]. simpl.
    rewrite Hd, lookup_insert_eq. eauto.
Qed.

Lemma append_data_ready (p d : string) (fs : FS) :
  (exists f, files fs !! p = Some f /\ f_writable f = true) ->
  exists f, files (append_data p d fs) !! p = Some f /\ f_writable f = true.
Proof.
  intros (f & Hf & Hw). unfold append_data. simpl.
  rewrite lookup_alter_eq, Hf. simpl. eauto.
Qed.

Lemma fold_write_line_ready (ls : list string) (fs1 : FS) :
  (exists f, files fs1 !! LOG_FILE = Some f /\ f_writable f = true) ->
  exists f, files (fold_left write_line ls fs1) !! LOG_FILE = Some f /\ f_writable f = true.
Proof.
  revert fs1. induction ls as [|l ls IH]; intros fs1 Hf; simpl; [exact Hf|].
  apply IH. now apply append_data_ready.
Qed.

Lemma reopen (fs : FS) :
  is_Some (dirs fs !! dirname LOG_FILE) ->
  (exists f, files fs !! LOG_FILE = Some f /\ f_writable f = true) ->
  open_append LOG_FILE fs = inr fs.
Proof.
  intros [dw Hd] (f & Hf & Hw). unfold open_append. now rewrite Hd, Hf, Hw.
Qed.

(** X8. A restart goes on where the last run stopped. When a run that
    started well is stopped after [n] turns and the program is started
    again on the file system it left, line 4 succeeds again, creates
    nothing and truncates nothing, and after [m] turns of the second run
    the destination holds what it held before the first run, then the [n]
    lines of the first run, then the [m] lines of the second. *)
Theorem restart_continues_the_file
    (env1 env2 : Env) (fs fs1 : FS) (n m : nat) :
  open_append LOG_FILE fs = inr fs1 ->
  exists w1 w2,
    after_cycles env1 n fs = Some (Running L9_debug w1)
    /\ open_append LOG_FILE (w_fs w1) = inr (w_fs w1)
    /\ after_cycles env2 m (w_fs w1) = Some (Running L9_debug w2)
    /\ read_text LOG_FILE (w_fs w2)
       = read_text LOG_FILE fs
         +:+ unlines (map (fun k => template (formatTime env1 (clock env1 k))
                                             "WARNING" WARN_MSG) (seq 0 n))
         +:+ unlines (map (fun k => template (formatTime env2 (clock env2 k))
                                             "WARNING" WARN_MSG) (seq 0 m)).
Proof.
  intros H.
  destruct (open_append_ready _ _ _ H) as (Hdir & Hfile).
  set (w1 := loop_world env1 fs1 n).
  assert (Hre : open_append LOG_FILE (w_fs w1) = inr (w_fs w1)).
  { apply reopen.
    - simpl. now rewrite fold_write_line_dirs.
    - simpl. now apply fold_write_line_ready. }
  exists w1, (loop_world env2 (w_fs w1) m).
  split; [now apply run_ok|]. split; [exact Hre|].
  split; [now apply run_ok|].
  rewrite (loop_text env2 (w_fs w1) (w_fs w1) m Hre).
  unfold w1. rewrite (loop_text env1 fs fs1 n H).
  now rewrite append_assoc.
Qed.

End Restart.

(** ** The further properties on concrete hosts *)

Section MoreHosts.

(** An ERROR call in the configured world of a fresh host is written. *)
Lemma configured_logger_filters_by_level_witness :
  w_root (loop_world steady_env fresh_fs_opened 0) = configured
  /\ exists w',
       log steady_env ERROR "disk is full" (loop_world steady_env fresh_fs_opened 0)
       = Done tt w'
       /\ read_text LOG_FILE (w_fs w')
          = template "2023-11-14 22:13:20,123" "ERROR" "disk is full" +:+ NL.
Proof.
  split; [reflexivity|].
  eexists. split.
  - exact (configured_logger_filters_by_level steady_env
             (loop_world steady_env fresh_fs_opened 0) ERROR "disk is full" eq_refl).
  - vm_compute. reflexivity.
Defined.

Lemma run_is_open_then_turns_witness :
  open_append LOG_FILE fresh_fs = inr fresh_fs_opened
  /\ exists w,
       after_cycles steady_env 2 fresh_fs = Some (Running L9_debug w)
       /\ w_reads w = 2%nat
       /\ total_sleep (w_trace w) = 6.
Proof.
  split; [exact fresh_fs_opens|].
  destruct (run_is_open_then_turns steady_env fresh_fs fresh_fs_opened 2 fresh_fs_opens)
    as (w & H1 & _ & Hr & _ & Hs).
  exists w. split; [exact H1|]. split; [exact Hr | exact Hs].
Defined.

Lemma formatted_record_reads_back_witness :
  all_chars Json.plain_char "disk is full" = true
  /\ exists line,
       format steady_env FORMAT
         {| r_name := "root"; r_levelno := ERROR; r_msg := "disk is full";
            r_created := 1700000000123 |} = Some line
       /\ line_message line = Some "disk is full"%string.
Proof.
  split; [reflexivity|].
  destruct (formatted_record_reads_back steady_env
              {| r_name := "root"; r_levelno := ERROR; r_msg := "disk is full";
                 r_created := 1700000000123 |} eq_refl)
    as (line & Hf & _ & _ & _ & Hm & _).
  exists line. split; [exact Hf | exact Hm].
Defined.

Lemma steady_env_civil (k : nat) :
  (k < 2)%nat ->
  0 <= clock steady_env k
  /\ civil_time (localtime steady_env (Z.quot (clock steady_env k) 1000)) = true.
Proof.
  intros Hk. destruct k as [|[|k]]; [split; [simpl; lia | vm_compute; reflexivity]..|lia].
Defined.

Lemma lines_have_fixed_width_witness :
  open_append LOG_FILE fresh_fs = inr fresh_fs_opened
  /\ exists w,
       after_cycles steady_env 2 fresh_fs = Some (Running L9_debug w)
       /\ String.length (read_text LOG_FILE (w_fs w)) = 210%nat.
Proof.
  split; [exact fresh_fs_opens|].
  destruct (lines_have_fixed_width steady_env fresh_fs fresh_fs_opened 2
              fresh_fs_opens steady_env_civil)
    as (w & H1 & _ & Hlen).
  exists w. split; [exact H1 | exact Hlen].
Defined.

Lemma used_fs_newline_terminated : newline_terminated (read_text LOG_FILE used_fs).
Proof.
  right. exists (template "2023-11-14 22:00:00,000" "WARNING" WARN_MSG).
  vm_compute. reflexivity.
Defined.

Lemma earlier_lines_are_kept_witness :
  open_append LOG_FILE used_fs = inr used_fs
  /\ newline_terminated (read_text LOG_FILE used_fs)
  /\ exists w,
       after_cycles steady_env 1 used_fs = Some (Running L9_debug w)
       /\ split_lines (read_text LOG_FILE (w_fs w))
          = split_lines (read_text LOG_FILE used_fs)
            ++ [template (formatTime steady_env (clock steady_env 0)) "WARNING" WARN_MSG].
Proof.
  split; [exact used_fs_opens|]. split; [exact used_fs_newline_terminated|].
  exact (earlier_lines_are_kept steady_env used_fs used_fs 1
           used_fs_opens used_fs_newline_terminated).
Defined.

Lemma restart_continues_the_file_witness :
  open_append LOG_FILE fresh_fs = inr fresh_fs_opened
  /\ exists w1 w2,
       after_cycles steady_env 1 fresh_fs = Some (Running L9_debug w1)
       /\ after_cycles set_back_env 2 (w_fs w1) = Some (Running L9_debug w2).
Proof.
  split; [exact fresh_fs_opens|].
  destruct (restart_continues_the_file steady_env set_back_env fresh_fs fresh_fs_opened 1 2
              fresh_fs_opens)
    as (w1 & w2 & H1 & _ & H2 & _).
  exists w1, w2. split; [exact H1 | exact H2].
Defined.

(** A file whose last line has no newline: the first line of the run goes
    on that line. *)
Example unterminated_last_line_is_extended :
  exists w,
    after_cycles steady_env 1
      {| dirs := {[ LOG_DIR := true ]};
         files := {[ LOG_FILE := {| f_data := "cut"; f_writable := true |} ]} |}
    = Some (Running L9_debug w)
    /\ split_lines (read_text LOG_FILE (w_fs w))
       = [ "cut" +:+ template "2023-11-14 22:13:20,123" "WARNING" WARN_MSG ].
Proof. eexists. split; vm_compute; reflexivity. Qed.

End MoreHosts.

(** * Order and time *)

(** ** The order of printed stamps *)

Section Order.

Lemma compare_refl (a : string) : String.compare a a = Eq.
Proof.
  induction a as [|c a IH]; simpl; [reflexivity|].
  unfold Ascii.compare. now rewrite N.compare_refl.
Qed.

Lemma compare_append_same_length (a a' b b' : string) :
  String.length a = String.length a' ->
  String.compare (a +:+ b) (a' +:+ b')
  = match String.compare a a' with
    | Eq => String.compare b b'
    | c => c
    end.
Proof.
  revert a'. induction a as [|c a IH]; intros [|c' a'] Hlen; try discriminate.
  - reflexivity.
  - simpl in Hlen. injection Hlen as Hlen. simpl.
    destruct (Ascii.compare c c'); [apply IH; exact Hlen | reflexivity | reflexivity].
Qed.

Lemma compare_lt_trans (a b c : string) :
  String.compare a b = Lt -> String.compare b c = Lt -> String.compare a c = Lt.
Proof.
  intros Hab Hbc.
  assert (Lab : String.le a b) by (unfold String.le, String.leb; now rewrite Hab).
  assert (Lbc : String.le b c) by (unfold String.le, String.leb; now rewrite Hbc).
  assert (Lac : String.le a c) by (etrans; eassumption).
  destruct (String.compare a c) eqn:Hac; [| reflexivity |].
  - apply String.compare_eq_iff in Hac. subst c.
    assert (a = b) by (apply (anti_symm String.le); assumption). subst b.
    rewrite compare_refl in Hab. discriminate.
  - unfold String.le, String.leb in Lac. rewrite Hac in Lac. contradiction.
Qed.

Lemma pad0_increasing (w bound : nat) :
  forallb (fun i => match String.compare (pad0 w (Z.of_nat i)) (pad0 w (Z.of_nat i + 1)) with
                    | Lt => true
                    | _ => false
                    end) (seq 0 bound) = true ->
  forall x y, 0 <= x -> x < y -> y <= Z.of_nat bound ->
    String.compare (pad0 w x) (pad0 w y) = Lt.
Proof.
  intros Hall x y Hx Hxy Hy.
  assert (Hstep : forall z, 0 <= z < Z.of_nat bound ->
            String.compare (pad0 w z) (pad0 w (z + 1)) = Lt).
  { intros z Hz.
    pose proof (below_by_cases
      (fun z => match String.compare (pad0 w z) (pad0 w (z + 1)) with
                | Lt => true
                | _ => false
                end) bound Hall z Hz) as Hb.
    cbv beta in Hb.
    destruct (String.compare (pad0 w z) (pad0 w (z + 1))); congruence. }
  replace y with (x + 1 + Z.of_nat (Z.to_nat (y - x - 1))) in * by lia.
  revert Hy. generalize (Z.to_nat (y - x - 1)) as d. clear Hxy.
  induction d as [|d IH]; intros Hd.
  - rewrite Z.add_0_r. apply Hstep. lia.
  - eapply compare_lt_trans; [apply IH; lia|].
    replace (x + 1 + Z.of_nat (S d)) with (x + 1 + Z.of_nat d + 1) by lia.
    apply Hstep. lia.
Qed.

Lemma pad0_2_increasing (x y : Z) :
  0 <= x -> x < y -> y < 100 -> String.compare (pad0 2 x) (pad0 2 y) = Lt.
Proof.
  intros Hx Hxy Hy. apply (pad0_increasing 2 99); [vm_compute; reflexivity|..]; lia.
Qed.

Lemma pad0_3_increasing (x y : Z) :
  0 <= x -> x < y -> y < 1000 -> String.compare (pad0 3 x) (pad0 3 y) = Lt.
Proof.
  intros Hx Hxy Hy. apply (pad0_increasing 3 999); [vm_compute; reflexivity|..]; lia.
Qed.

Lemma pad0_4_increasing (x y : Z) :
  0 <= x -> x < y -> y < 10000 -> String.compare (pad0 4 x) (pad0 4 y) = Lt.
Proof.
  intros Hx Hxy Hy.
  apply (pad0_increasing 4 (Z.to_nat 9999)); [vm_compute; reflexivity|..]; lia.
Qed.

Lemma leb_field (a a' sep b b' : string) :
  String.length a = String.length a' ->
  String.compare a a' = Lt \/ (a = a' /\ String.leb b b' = true) ->
  String.leb (a +:+ sep +:+ b) (a' +:+ sep +:+ b') = true.
Proof.
  intros Hlen H. unfold String.leb.
  rewrite (compare_append_same_length a a') by exact Hlen.
  destruct H as [-> | [-> Hb]]; [reflexivity|].
  rewrite compare_refl, (compare_append_same_length sep sep), compare_refl by reflexivity.
  exact Hb.
Qed.


Lemma field_le (w : nat) (x y : Z) (tail : bool) (b b' : string) :
  (forall u v, 0 <= u -> u < v -> v <= y -> String.compare (pad0 w u) (pad0 w v) = Lt) ->
  String.length (pad0 w x) = String.length (pad0 w y) ->
  0 <= x ->
  (x <? y) || ((x =? y) && tail) = true ->
  (tail = true -> String.leb b b' = true) ->
  forall sep, String.leb (pad0 w x +:+ sep +:+ b) (pad0 w y +:+ sep +:+ b') = true.
Proof.
  intros Hinc Hlen Hx Hcmp Htail sep. apply leb_field; [exact Hlen|].
  apply orb_true_iff in Hcmp as [Hlt | Heq].
  - left. apply Z.ltb_lt in Hlt. apply Hinc; lia.
  - right. apply andb_true_iff in Heq as [Heq Ht]. apply Z.eqb_eq in Heq. subst y.
    split; [reflexivity | now apply Htail].
Qed.

Lemma last_field_le (x y : Z) :
  0 <= x -> y < 1000 ->
  (x <? y) || ((x =? y) && true) = true ->
  String.leb (pad0 3 x) (pad0 3 y) = true.
Proof.
  intros Hx Hy Hcmp. unfold String.leb.
  apply orb_true_iff in Hcmp as [Hlt | Heq].
  - apply Z.ltb_lt in Hlt. now rewrite pad0_3_increasing by lia.
  - apply andb_true_iff in Heq as [Heq _]. apply Z.eqb_eq in Heq. subst y.
    now rewrite compare_refl.
Qed.

(** One field of a stamp and its separator: the comparison of the local
    times goes on to the next field when the two fields are the same. *)
Ltac next_field w x y increasing width H :=
  let Hi := fresh "Hi" in
  let Hl := fresh "Hl" in
  assert (Hi : forall u v, 0 <= u -> u < v -> v <= y ->
                 String.compare (pad0 w u) (pad0 w v) = Lt)
    by (intros; apply increasing; lia);
  assert (Hl : String.length (pad0 w x) = String.length (pad0 w y))
    by (rewrite !width by lia; reflexivity);
  eapply (field_le w x y _ _ _ Hi Hl); [lia | exact H |];
  clear Hi Hl H; intros H.

(** Padding with zeros to a fixed width makes the order of the printed
    stamps the order of the local times they print. *)
Lemma formatTime_leb (env : Env) (ct ct' : Z) :
  legible env ct = true ->
  legible env ct' = true ->
  local_time_le env ct ct' = true ->
  String.leb (formatTime env ct) (formatTime env ct') = true.
Proof.
  unfold legible. intros [Hct Hc]%andb_true_iff [Hct' Hc']%andb_true_iff Hle.
  apply Z.leb_le in Hct, Hct'.
  apply civil_time_bounds in Hc, Hc'.
  assert (Hms : 0 <= Z.rem ct 1000 < 1000) by (apply Z.rem_bound_pos; lia).
  assert (Hms' : 0 <= Z.rem ct' 1000 < 1000) by (apply Z.rem_bound_pos; lia).
  unfold local_time_le, time_key in Hle. cbn [lex_le] in Hle.
  unfold formatTime, strftime. rewrite !append_assoc.
  set (t := localtime env (Z.quot ct 1000)) in *.
  set (t' := localtime env (Z.quot ct' 1000)) in *.
  next_field 4%nat (tm_year t) (tm_year t') pad0_4_increasing pad0_4_width Hle.
  next_field 2%nat (tm_mon t) (tm_mon t') pad0_2_increasing pad0_2_width Hle.
  next_field 2%nat (tm_mday t) (tm_mday t') pad0_2_increasing pad0_2_width Hle.
  next_field 2%nat (tm_hour t) (tm_hour t') pad0_2_increasing pad0_2_width Hle.
  next_field 2%nat (tm_min t) (tm_min t') pad0_2_increasing pad0_2_width Hle.
  next_field 2%nat (tm_sec t) (tm_sec t') pad0_2_increasing pad0_2_width Hle.
  apply last_field_le; [lia | lia | exact Hle].
Qed.

Lemma sorted_by_map_seq {A} (le : A -> A -> bool) (f : nat -> A) (a n : nat) :
  (forall k, (a <= k)%nat -> (S k < a + n)%nat -> le (f k) (f (S k)) = true) ->
  sorted_by le (map f (seq a n)) = true.
Proof.
  revert a. induction n as [|n IH]; intros a H; [reflexivity|].
  destruct n as [|n]; [reflexivity|].
  change (sorted_by le (map f (seq a (S (S n)))))
    with (le (f a) (f (S a)) && sorted_by le (map f (seq (S a) (S n)))).
  rewrite H by lia. apply IH. intros k Hk1 Hk2. apply H; lia.
Qed.

Lemma emitted_stamps (env : Env) (n : nat) :
  omap line_timestamp (emitted env n)
  = map (fun k => formatTime env (clock env k)) (seq 0 n).
Proof.
  unfold emitted. induction (seq 0 n) as [|k ks IH]; [reflexivity|].
  change (omap line_timestamp (map (warning_line env) (k :: ks)))
    with (match line_timestamp (warning_line env k) with
          | Some y => y :: omap line_timestamp (map (warning_line env) ks)
          | None => omap line_timestamp (map (warning_line env) ks)
          end).
  rewrite warning_line_timestamp, IH. reflexivity.
Qed.

End Order.

(** ** The order of the lines of a run *)

Section KeptInOrder.

(** C4, as the code has it. After [N] turns the program has appended
    exactly [N] lines of level WARNING after what the file held when it was
    opened, so a file that was absent or empty then holds exactly [N]
    WARNING lines; the [k]-th of them prints the [k]-th reading of the wall
    clock as the local time of the host. The printed stamps of the run are
    in non-decreasing order when every reading is at or after the epoch
    with a year of four digits and the local time of each reading is not
    before the local time of the reading before it (which the program does
    not see to: the clock can be set back, and local time steps back when
    summer time ends). What has been written stays: the text after fewer
    turns is a prefix of the text after more, and no other file changes. *)
Theorem appended_lines_kept_in_order (env : Env) (fs fs1 : FS) (N : nat) :
  open_append LOG_FILE fs = inr fs1 ->
  exists w lines,
    after_cycles env N fs = Some (Running L9_debug w)
    /\ read_text LOG_FILE (w_fs w) = read_text LOG_FILE fs +:+ unlines lines
    /\ split_lines (unlines lines) = lines
    /\ length lines = N
    /\ Forall (fun l => line_level l = Some "WARNING"%string) lines
    /\ (read_text LOG_FILE fs = EmptyString ->
        warning_lines (read_text LOG_FILE (w_fs w)) = lines
        /\ length (warning_lines (read_text LOG_FILE (w_fs w))) = N)
    /\ (forall k, (k < N)%nat ->
        exists l, lines !! k = Some l
                  /\ line_timestamp l = Some (formatTime env (clock env k)))
    /\ ((forall k, (k < N)%nat -> legible env (clock env k) = true) ->
        (forall k, (S k < N)%nat ->
           local_time_le env (clock env k) (clock env (S k)) = true) ->
        stamps_sorted (unlines lines) = true
        /\ (read_text LOG_FILE fs = EmptyString ->
            stamps_sorted (read_text LOG_FILE (w_fs w)) = true))
    /\ (forall M, (M <= N)%nat ->
        exists wM more,
          after_cycles env M fs = Some (Running L9_debug wM)
          /\ read_text LOG_FILE (w_fs w) = read_text LOG_FILE (w_fs wM) +:+ more)
    /\ (forall q, LOG_FILE <> q -> files (w_fs w) !! q = files fs !! q)
    /\ dirs (w_fs w) = dirs fs.
Proof.
  intros H. destruct (open_append_ok _ _ _ H) as (Hsome & Htext & Hdirs & Hother).
  exists (loop_world env fs1 N), (emitted env N).
  split; [now apply run_ok|].
  split; [now apply loop_text|].
  split; [apply split_lines_unlines, emitted_no_newline|].
  split; [apply emitted_length|].
  split; [apply emitted_level|].
  split.
  { intros Hempty. rewrite (loop_text env fs fs1 N H), Hempty.
    change (EmptyString +:+ unlines (emitted env N)) with (unlines (emitted env N)).
    unfold warning_lines.
    rewrite split_lines_unlines by apply emitted_no_newline.
    rewrite filter_all; [split; [reflexivity | apply emitted_length]|].
    eapply Forall_impl; [apply emitted_level|].
    intros l Hl. unfold is_warning_line. simpl in Hl. now rewrite Hl. }
  split.
  { intros k Hk. exists (warning_line env k).
    split; [now apply emitted_lookup | apply warning_line_timestamp]. }
  split.
  { intros Hleg Hle.
    assert (Hsorted : stamps_sorted (unlines (emitted env N)) = true).
    { unfold stamps_sorted.
      rewrite split_lines_unlines by apply emitted_no_newline.
      rewrite emitted_stamps. apply sorted_by_map_seq.
      intros k _ Hk. apply formatTime_leb; [apply Hleg; lia | apply Hleg; lia | now apply Hle]. }
    split; [exact Hsorted|].
    intros Hempty. rewrite (loop_text env fs fs1 N H), Hempty. exact Hsorted. }
  split.
  { intros M HM. destruct (emitted_prefix env M N HM) as [more Hmore].
    exists (loop_world env fs1 M), (unlines more).
    split; [now apply run_ok|].
    rewrite !(loop_text env fs fs1) by exact H.
    now rewrite Hmore, unlines_app, append_assoc. }
  split.
  { intros q Hq. simpl. rewrite fold_write_line_other by exact Hq. now apply Hother. }
  simpl. now rewrite fold_write_line_dirs.
Qed.

(** C4 as the specification has it fails. A file that held a line when the
    program was started holds two WARNING lines after one turn. When the
    clock is set back between two readings, the stamps of the two lines of
    a fresh file are in decreasing order. And with a clock that is never
    set back, the stamps are in decreasing order all the same when summer
    time ends between two readings. *)
Lemma not_exactly_N_lines_nor_sorted :
  (exists w,
     after_cycles steady_env 1 used_fs = Some (Running L9_debug w)
     /\ length (warning_lines (read_text LOG_FILE (w_fs w))) = 2%nat)
  /\ (exists w,
        after_cycles set_back_env 2 fresh_fs = Some (Running L9_debug w)
        /\ omap line_timestamp (split_lines (read_text LOG_FILE (w_fs w)))
           = [ "2023-11-14 22:13:25,000"%string; "2023-11-14 22:13:20,000"%string ]
        /\ stamps_sorted (read_text LOG_FILE (w_fs w)) = false)
  /\ (exists w,
        after_cycles summer_time_ends_env 2 fresh_fs = Some (Running L9_debug w)
        /\ clock summer_time_ends_env 0 <= clock summer_time_ends_env 1
        /\ omap line_timestamp (split_lines (read_text LOG_FILE (w_fs w)))
           = [ "2023-10-29 02:59:57,000"%string; "2023-10-29 02:00:00,000"%string ]
        /\ stamps_sorted (read_text LOG_FILE (w_fs w)) = false).
Proof.
  split; [|split].
  - eexists. split; vm_compute; reflexivity.
  - eexists. split; [vm_compute; reflexivity|].
    split; vm_compute; reflexivity.
  - eexists. split; [vm_compute; reflexivity|].
    split; [vm_compute; discriminate|].
    split; vm_compute; reflexivity.
Qed.

Lemma steady_env_legible (k : nat) :
  (k < 3)%nat -> legible steady_env (clock steady_env k) = true.
Proof.
  intros Hk. destruct k as [|[|[|k]]]; [vm_compute; reflexivity..|lia].
Defined.

Lemma steady_env_local_time_le (k : nat) :
  (S k < 3)%nat ->
  local_time_le steady_env (clock steady_env k) (clock steady_env (S k)) = true.
Proof.
  intros Hk. destruct k as [|[|k]]; [vm_compute; reflexivity..|lia].
Defined.

(** On a fresh host on UTC with a steady clock: three lines after three
    turns, and their stamps in order. *)
Lemma appended_lines_kept_in_order_witness :
  open_append LOG_FILE fresh_fs = inr fresh_fs_opened
  /\ exists w lines,
       after_cycles steady_env 3 fresh_fs = Some (Running L9_debug w)
       /\ warning_lines (read_text LOG_FILE (w_fs w)) = lines
       /\ length lines = 3%nat
       /\ stamps_sorted (read_text LOG_FILE (w_fs w)) = true.
Proof.
  split; [exact fresh_fs_opens|].
  destruct (appended_lines_kept_in_order steady_env fresh_fs fresh_fs_opened 3 fresh_fs_opens)
    as (w & lines & H1 & _ & _ & Hlen & _ & Hfresh & _ & Hord & _).
  exists w, lines. split; [exact H1|].
  split; [apply Hfresh; reflexivity|].
  split; [exact Hlen|].
  apply (Hord steady_env_legible steady_env_local_time_le). reflexivity.
Defined.

End KeptInOrder.

(** ** Three seconds between two lines *)

Section ThreeSeconds.








End ThreeSeconds.
